(** * Defold CI driver and archive-builder task: a shallow embedding

    This development models two scripts of the Defold repository:

    - [ci/ci.py], the continuous-integration driver.  It asks git for the
      current branch, derives the release configuration of that branch and
      then executes the commands given on its command line by shelling out
      to [scripts/build.py].
    - [engine/resource/src/waf_resource.py], the Waf plugin that registers
      the [resource_archive] task for the [barchive] feature.

    Strings are Rocq strings (the scripts are Python 2, where [str] is a byte
    string).  A Python value that is either a [str] or [None] is an
    [option string].  Printing, spawning a process, and file writes are
    recorded in a trace; the answers of the outside world (what a spawned
    process prints and how it exits, the host system, the base64 decoder)
    come from a [Host] record. *)

From Stdlib Require Import Ascii String ZArith.
From stdpp Require Import base strings list gmap.

Local Open Scope string_scope.
Local Open Scope list_scope.

(** ** Python values and string operations *)

Module Py.

(** Exceptions that the modelled code can raise. *)
Inductive Exn : Type :=
| Exception (msg : string)
| AttributeError (msg : string)
| TypeError (msg : string)
| BinasciiError.

(** How a computation ends: normally, by an uncaught exception, or by
    [exit(code)]. *)
Inductive Outcome (A : Type) : Type :=
| Done (a : A)
| Raised (e : Exn)
| Exited (code : Z).

Arguments Done {A} a.
Arguments Raised {A} e.
Arguments Exited {A} code.

Definition obind {A B : Type} (o : Outcome A) (k : A -> Outcome B) : Outcome B :=
  match o with
  | Done a => k a
  | Raised e => Raised e
  | Exited c => Exited c
  end.

(** Truth value of a [str]-or-[None]: [None] and [''] are false. *)
Definition truthy (v : option string) : bool :=
  match v with
  | Some (String _ _) => true
  | _ => false
  end.

(** [v == s] for a string literal [s]; [None] equals no string. *)
Definition eq_str (v : option string) (s : string) : bool :=
  match v with
  | Some x => String.eqb x s
  | None => false
  end.

(** [v or d] for a string literal [d]. *)
Definition or_default (v : option string) (d : string) : option string :=
  if truthy v then v else Some d.

(** [v.startswith(p)]: an attribute lookup, which [None] does not have. *)
Definition startswith (v : option string) (p : string) : Outcome bool :=
  match v with
  | Some s => Done (String.prefix p s)
  | None => Raised (AttributeError "'NoneType' object has no attribute 'startswith'")
  end.

(** [v in l] for a list of string literals. *)
Definition in_list (v : option string) (l : list string) : bool :=
  existsb (eq_str v) l.

(** ['%s' % v] and ['{}'.format(v)]. *)
Definition str (v : option string) : string :=
  match v with
  | Some s => s
  | None => "None"
  end.

(** [sep.join(l)]. *)
Definition join (sep : string) (l : list string) : string := String.concat sep l.

(** The whitespace of [str.strip]: tab, newline, vertical tab, form feed,
    carriage return and space. *)
Definition is_space (c : ascii) : bool :=
  let n := nat_of_ascii c in
  (Nat.leb 9 n && Nat.leb n 13) || Nat.eqb n 32.

Fixpoint lstrip (s : string) : string :=
  match s with
  | String c r => if is_space c then lstrip r else s
  | EmptyString => EmptyString
  end.

Fixpoint rstrip (s : string) : string :=
  match s with
  | EmptyString => EmptyString
  | String c r =>
      match rstrip r with
      | EmptyString => if is_space c then EmptyString else String c EmptyString
      | r' => String c r'
      end
  end.

Definition strip (s : string) : string := lstrip (rstrip s).

Definition newline : ascii := ascii_of_nat 10.

(** The successive results of [readline()] on a stream holding [s]: each
    line keeps its newline, the last one may lack it. *)
Fixpoint readlines (s : string) : list string :=
  match s with
  | EmptyString => []
  | String c r =>
      if Ascii.eqb c newline then String c EmptyString :: readlines r
      else match readlines r with
           | [] => [String c EmptyString]
           | l :: ls => String c l :: ls
           end
  end.

End Py.

(** ** ci/ci.py *)

Module Ci.
Import Py.

(** What the script does to the outside world, in the order it happens. *)
Inductive Event : Type :=
| EvPrint (line : string)
| EvSpawn (cmd : string)
| EvCreate (path : string)
| EvWrite (path data : string)
| EvRemove (path : string).

(** The outside world.  [process t cmd] is what the shell command [cmd],
    started after the events [t], writes to its output and the status it
    exits with; [system] is [platform.system()]; [decodestring] is
    [base64.decodestring] on a string, [None] when it raises.  File
    operations are taken to succeed. *)
Record Host : Type := {
  process : list Event -> string -> string * Z;
  system : string;
  decodestring : string -> option string
}.

(** A computation of the script: it extends the trace and ends in an
    [Outcome]. *)
Definition M (A : Type) : Type := list Event -> Outcome A * list Event.

Definition ret {A : Type} (a : A) : M A := fun t => (Done a, t).

Definition bind {A B : Type} (m : M A) (k : A -> M B) : M B :=
  fun t =>
    match m t with
    | (Done a, t') => k a t'
    | (Raised e, t') => (Raised e, t')
    | (Exited c, t') => (Exited c, t')
    end.

Notation "x <- m ;; k" := (bind m (fun x => k))
  (at level 100, m at next level, right associativity).
Notation "m ;; k" := (bind m (fun _ => k))
  (at level 100, right associativity).

Definition emit (e : Event) : M unit := fun t => (Done tt, t ++ [e]).

Definition print (line : string) : M unit := emit (EvPrint line).

Definition raise {A : Type} (e : Exn) : M A := fun t => (Raised e, t).

Definition exit {A : Type} (code : Z) : M A := fun t => (Exited code, t).

Definition lift {A : Type} (o : Outcome A) : M A := fun t => (o, t).

(** [for x in l: body(x)]. *)
Fixpoint for_each {A : Type} (l : list A) (body : A -> M unit) : M unit :=
  match l with
  | [] => ret tt
  | x :: l' => body x ;; for_each l' body
  end.

(** [l] when [b] holds, nothing otherwise: an [if b: xs.append(..)]. *)
Definition when (b : bool) (l : list string) : list string :=
  if b then l else [].

(** The parsed command line. *)
Record Args : Type := {
  args_commands : list string;
  args_platform : option string;
  args_with_asan : bool;
  args_with_valgrind : bool;
  args_with_vanilla_lua : bool;
  args_archive : bool;
  args_skip_tests : bool;
  args_skip_builtins : bool;
  args_skip_docs : bool;
  args_engine_artifacts : option string;
  args_keychain_cert : option string;
  args_keychain_cert_pass : option string;
  args_notarization_username : option string;
  args_notarization_password : option string;
  args_notarization_itc_provider : option string
}.

(** The build flags that [main] derives from the branch. *)
Record BranchConfig : Type := {
  engine_channel : option string;
  editor_channel : option string;
  release_channel : option string;
  make_release : bool;
  engine_artifacts : option string;
  skip_editor_tests : bool
}.

Definition PLATFORMS_DESKTOP : list string :=
  ["x86_64-linux"; "x86_64-win32"; "x86_64-darwin"].

Section WithHost.
Variable host : Host.

(** Start the shell command and take its whole output and exit status. *)
Definition spawn (cmd : string) : M (string * Z) :=
  fun t => (Done (process host t cmd), t ++ [EvSpawn cmd]).

(** The [readline] loop of [call]: collect each line and echo it without
    its trailing whitespace. *)
Fixpoint read_output (lines : list string) (output : string) : M string :=
  match lines with
  | [] => ret output
  | line :: rest =>
      print (rstrip line) ;;
      read_output rest (output +:+ line)
  end.

Definition call (args : string) (failonerror : bool) : M string :=
  print args ;;
  r <- spawn args ;;
  output <- read_output (readlines (fst r)) EmptyString ;;
  if negb (Z.eqb (snd r) 0) && failonerror then exit 1 else ret output.

Definition platform_from_host : string :=
  if String.eqb (system host) "Linux" then "x86_64-linux"
  else if String.eqb (system host) "Darwin" then "x86_64-darwin"
  else "x86_64-win32".

Definition aptfast (package : string) : M unit :=
  call ("sudo apt-fast install -y --no-install-recommends " +:+ package) true ;; ret tt.

Definition setup_keychain (args : Args) : M unit :=
  let keychain_pass := "foobar" in
  let keychain_name := "defold.keychain" in
  print "Setting up keychain" ;;
  print "Creating keychain" ;;
  call ("security create-keychain -p " +:+ keychain_pass +:+ " " +:+ keychain_name) true ;;
  print "Setting keychain as default" ;;
  call ("security default-keychain -s " +:+ keychain_name) true ;;
  print "Unlock keychain" ;;
  call ("security unlock-keychain -p " +:+ keychain_pass +:+ " " +:+ keychain_name) true ;;
  print "Decoding certificate" ;;
  (* os.path.join("ci", "cert.p12") on the only host that gets here *)
  let cert_path := "ci/cert.p12" in
  let cert_pass := args_keychain_cert_pass args in
  emit (EvCreate cert_path) ;;
  data <- match args_keychain_cert args with
          | None => raise (TypeError "must be string or buffer, not None")
          | Some cert =>
              match decodestring host cert with
              | Some d => ret d
              | None => raise BinasciiError
              end
          end ;;
  emit (EvWrite cert_path data) ;;
  print "Importing certificate" ;;
  call ("security import " +:+ cert_path +:+ " -k " +:+ keychain_name
        +:+ " -P " +:+ str cert_pass +:+ " -A") true ;;
  emit (EvRemove cert_path) ;;
  call ("security set-key-partition-list -S apple-tool:,apple:,codesign: -s -k "
        +:+ keychain_pass +:+ " " +:+ keychain_name) true ;;
  call ("security set-keychain-settings " +:+ keychain_name) true ;;
  call ("security list-keychains -d user -s " +:+ keychain_name) true ;;
  print "Done with keychain setup".

Definition install (args : Args) : M unit :=
  print ("Installing dependencies for system '" +:+ system host +:+ "' ") ;;
  if String.eqb (system host) "Linux" then
    call "sudo add-apt-repository ppa:apt-fast/stable" true ;;
    call "sudo apt-get update" false ;;
    call "echo debconf apt-fast/maxdownloads string 16 | sudo debconf-set-selections" true ;;
    call "echo debconf apt-fast/dlflag boolean true | sudo debconf-set-selections" true ;;
    call "echo debconf apt-fast/aptmanager string apt-get | sudo debconf-set-selections" true ;;
    call "sudo apt-get install -y apt-fast aria2" true ;;
    call "sudo apt-get install -y software-properties-common" true ;;
    let packages :=
      ["libssl-dev"; "openssl"; "libtool"; "autoconf"; "automake";
       "build-essential"; "uuid-dev"; "libxi-dev"; "libopenal-dev";
       "libgl1-mesa-dev"; "libglw1-mesa-dev"; "freeglut3-dev"; "tofrodos";
       "tree"; "valgrind"; "lib32z1"; "xvfb"] in
    aptfast (join " " packages)
  else if String.eqb (system host) "Darwin" then
    if truthy (args_keychain_cert args) then setup_keychain args else ret tt
  else ret tt.

Definition build_engine (platform : string)
    (with_valgrind with_asan with_vanilla_lua skip_tests skip_codesign
     skip_docs skip_builtins archive : bool) (channel : option string) : M unit :=
  let args :=
    (["python"; "scripts/build.py"; "distclean"; "install_ext"]
     ++ when (String.eqb platform "js-web" || String.eqb platform "wasm-web")
          ["install_ems"]
     ++ ["build_engine"]
     ++ when archive ["archive_engine"]) in
  let opts :=
    (["--platform=" +:+ platform]
     ++ when (truthy channel) ["--channel=" +:+ str channel]
     ++ when skip_codesign ["--skip-codesign"]
     ++ when skip_docs ["--skip-docs"]
     ++ when skip_builtins ["--skip-builtins"]
     ++ when skip_tests ["--skip-tests"]) in
  let waf_opts :=
    (when skip_tests ["--skip-build-tests"]
     ++ when with_valgrind ["--with-valgrind"]
     ++ when with_asan ["--with-asan"]
     ++ when with_vanilla_lua ["--use-vanilla-lua"]) in
  let cmd := join " " (args ++ opts) in
  (* Add arguments to waf after a double-dash *)
  let cmd :=
    match waf_opts with
    | [] => cmd
    | _ :: _ => cmd +:+ " -- " +:+ join " " waf_opts
    end in
  call cmd true ;; ret tt.

Definition build_editor2 (channel engine_artifacts : option string)
    (skip_tests : bool) : M unit :=
  let host_platform := platform_from_host in
  if negb (existsb (String.eqb host_platform) PLATFORMS_DESKTOP) then ret tt
  else
    let opts :=
      (when (truthy engine_artifacts) ["--engine-artifacts=" +:+ str engine_artifacts]
       ++ when (truthy channel) ["--channel=" +:+ str channel]
       ++ when skip_tests ["--skip-tests"]) in
    let opts_string := join " " opts in
    call ("python scripts/build.py distclean install_ext build_editor2 --platform="
          +:+ host_platform +:+ " " +:+ opts_string) true ;;
    for_each PLATFORMS_DESKTOP (fun platform =>
      call ("python scripts/build.py bundle_editor2 --platform="
            +:+ platform +:+ " " +:+ opts_string) true ;; ret tt).

Definition download_editor2 (channel platform : option string) : M unit :=
  let platforms :=
    match platform with
    | None => PLATFORMS_DESKTOP
    | Some p => [p]
    end in
  let opts := when (truthy channel) ["--channel=" +:+ str channel] in
  for_each platforms (fun platform =>
    call ("python scripts/build.py download_editor2 --platform="
          +:+ platform +:+ " " +:+ join " " opts) true ;; ret tt).

Definition notarize_editor2
    (notarization_username notarization_password notarization_itc_provider
     : option string) : M unit :=
  if negb (truthy notarization_username) || negb (truthy notarization_password) then
    print "No notarization username or password" ;;
    exit 1
  else
    let args := ["python"; "scripts/build.py"; "notarize_editor2"] in
    let opts :=
      (["--platform=x86_64-darwin"]
       ++ ["--notarization-username=" +:+ str notarization_username]
       ++ ["--notarization-password=" +:+ str notarization_password]
       ++ when (truthy notarization_itc_provider)
            ["--notarization-itc-provider=" +:+ str notarization_itc_provider]) in
    let cmd := join " " (args ++ opts) in
    call cmd true ;; ret tt.

Definition archive_editor2 (channel engine_artifacts platform : option string)
    : M unit :=
  let platforms :=
    match platform with
    | None => PLATFORMS_DESKTOP
    | Some p => [p]
    end in
  let opts :=
    (when (truthy engine_artifacts) ["--engine-artifacts=" +:+ str engine_artifacts]
     ++ when (truthy channel) ["--channel=" +:+ str channel]) in
  let opts_string := join " " opts in
  for_each platforms (fun platform =>
    call ("python scripts/build.py archive_editor2 --platform="
          +:+ platform +:+ " " +:+ opts_string) true ;; ret tt).

Definition build_bob (channel : option string) : M unit :=
  let args := ["python"; "scripts/build.py"; "distclean"; "install_ext";
               "sync_archive"; "build_bob"; "archive_bob"] in
  let opts := when (truthy channel) ["--channel=" +:+ str channel] in
  let cmd := join " " (args ++ opts) in
  call cmd true ;; ret tt.

Definition release (channel : option string) : M unit :=
  let args := ["python"; "scripts/build.py"; "release"] in
  let opts := when (truthy channel) ["--channel=" +:+ str channel] in
  let cmd := join " " (args ++ opts) in
  call cmd true ;; ret tt.

Definition build_sdk (channel : option string) : M unit :=
  let args := ["python"; "scripts/build.py"; "build_sdk"] in
  let opts := when (truthy channel) ["--channel=" +:+ str channel] in
  let cmd := join " " (args ++ opts) in
  call cmd true ;; ret tt.

Definition smoke_test : M unit :=
  call "python scripts/build.py distclean install_ext smoke_test" true ;; ret tt.

Definition get_branch : M string :=
  out <- call "git rev-parse --abbrev-ref HEAD" true ;;
  let branch := strip out in
  if String.eqb branch "HEAD" then call "git rev-parse HEAD" true
  else ret branch.

End WithHost.

(** The branch-to-flags part of [main] ("configure build flags based on the
    branch").  It reads the branch and the parsed command line, and nothing
    else. *)
Definition configure (args : Args) (branch : option string) : Outcome BranchConfig :=
  let release_channel := None in
  let skip_editor_tests := false in
  if eq_str branch "master" then
    Done {| engine_channel := Some "stable";
            editor_channel := Some "editor-alpha";
            release_channel := Some "editor-stable";
            make_release := false;
            engine_artifacts := or_default (args_engine_artifacts args) "archived";
            skip_editor_tests := skip_editor_tests |}
  else if eq_str branch "beta" then
    let engine_channel := Some "beta" in
    Done {| engine_channel := engine_channel;
            editor_channel := Some "beta";
            release_channel := engine_channel;
            make_release := true;
            engine_artifacts := or_default (args_engine_artifacts args) "archived";
            skip_editor_tests := skip_editor_tests |}
  else if eq_str branch "dev" then
    let engine_channel := Some "alpha" in
    Done {| engine_channel := engine_channel;
            editor_channel := Some "alpha";
            release_channel := engine_channel;
            make_release := true;
            engine_artifacts := or_default (args_engine_artifacts args) "archived";
            skip_editor_tests := skip_editor_tests |}
  else if eq_str branch "editor-dev" then
    let editor_channel := Some "editor-alpha" in
    Done {| engine_channel := None;
            editor_channel := editor_channel;
            release_channel := editor_channel;
            make_release := true;
            engine_artifacts := args_engine_artifacts args;
            skip_editor_tests := skip_editor_tests |}
  else
    (* branch and branch.startswith("DEFEDIT-") *)
    obind (if truthy branch then startswith branch "DEFEDIT-" else Done false)
      (fun defedit =>
         if defedit : bool then
           Done {| engine_channel := None;
                   editor_channel := None;
                   release_channel := release_channel;
                   make_release := false;
                   engine_artifacts :=
                     or_default (args_engine_artifacts args) "archived-stable";
                   skip_editor_tests := skip_editor_tests |}
         else (* engine dev branch *)
           Done {| engine_channel := Some "dev";
                   editor_channel := None;
                   release_channel := release_channel;
                   make_release := false;
                   engine_artifacts := or_default (args_engine_artifacts args) "archived";
                   skip_editor_tests := true |}).

Section WithHostMain.
Variable host : Host.

(** One turn of the command loop of [main]. *)
Definition exec_command (args : Args) (cfg : BranchConfig)
    (branch : option string) (command : string) : M unit :=
  let platform := args_platform args in
  if String.eqb command "engine" then
    if negb (truthy platform) then raise (Exception "No --platform specified.")
    else
      build_engine host (str platform)
        (args_with_valgrind args || in_list branch ["master"; "beta"])
        (args_with_asan args)
        (args_with_vanilla_lua args)
        (args_skip_tests args)
        true
        (args_skip_docs args)
        (args_skip_builtins args)
        (args_archive args)
        (engine_channel cfg)
  else if String.eqb command "build-editor" then
    build_editor2 host (editor_channel cfg) (engine_artifacts cfg) (skip_editor_tests cfg)
  else if String.eqb command "download-editor" then
    download_editor2 host (editor_channel cfg) platform
  else if String.eqb command "notarize-editor" then
    notarize_editor2 host
      (args_notarization_username args)
      (args_notarization_password args)
      (args_notarization_itc_provider args)
  else if String.eqb command "archive-editor" then
    archive_editor2 host (editor_channel cfg) (engine_artifacts cfg) platform
  else if String.eqb command "bob" then
    build_bob host (engine_channel cfg)
  else if String.eqb command "sdk" then
    build_sdk host (engine_channel cfg)
  else if String.eqb command "smoke" then
    smoke_test host
  else if String.eqb command "install" then
    install host args
  else if String.eqb command "release" then
    if make_release cfg then release host (release_channel cfg)
    else print ("Branch '" +:+ str branch
                +:+ "' is not configured for automatic release from CI")
  else
    print ("Unknown command " +:+ command).

(** The command loop. *)
Definition run_commands (args : Args) (cfg : BranchConfig)
    (branch : option string) (commands : list string) : M unit :=
  for_each commands (exec_command args cfg branch).

(** [main], from the parsed command line on. *)
Definition main (args : Args) : M unit :=
  b <- get_branch host ;;
  let branch := Some b in
  cfg <- lift (configure args branch) ;;
  print ("Using branch=" +:+ str branch
         +:+ " engine_channel=" +:+ str (engine_channel cfg)
         +:+ " editor_channel=" +:+ str (editor_channel cfg)
         +:+ " engine_artifacts=" +:+ str (engine_artifacts cfg)) ;;
  run_commands args cfg branch (args_commands args).

End WithHostMain.

(** The command names that the loop of [main] knows. *)
Definition known_commands : list string :=
  ["engine"; "build-editor"; "download-editor"; "notarize-editor";
   "archive-editor"; "bob"; "sdk"; "smoke"; "install"; "release"].

(** The same command line with another list of commands. *)
Definition set_commands (args : Args) (commands : list string) : Args :=
  {| args_commands := commands;
     args_platform := args_platform args;
     args_with_asan := args_with_asan args;
     args_with_valgrind := args_with_valgrind args;
     args_with_vanilla_lua := args_with_vanilla_lua args;
     args_archive := args_archive args;
     args_skip_tests := args_skip_tests args;
     args_skip_builtins := args_skip_builtins args;
     args_skip_docs := args_skip_docs args;
     args_engine_artifacts := args_engine_artifacts args;
     args_keychain_cert := args_keychain_cert args;
     args_keychain_cert_pass := args_keychain_cert_pass args;
     args_notarization_username := args_notarization_username args;
     args_notarization_password := args_notarization_password args;
     args_notarization_itc_provider := args_notarization_itc_provider args |}.

(** A command line that gives only commands, --platform and
    --engine-artifacts. *)
Definition plain_args (commands : list string)
    (platform engine_artifacts : option string) : Args :=
  {| args_commands := commands;
     args_platform := platform;
     args_with_asan := false;
     args_with_valgrind := false;
     args_with_vanilla_lua := false;
     args_archive := false;
     args_skip_tests := false;
     args_skip_builtins := false;
     args_skip_docs := false;
     args_engine_artifacts := engine_artifacts;
     args_keychain_cert := None;
     args_keychain_cert_pass := None;
     args_notarization_username := None;
     args_notarization_password := None;
     args_notarization_itc_provider := None |}.

(** A Linux host in the checkout of [branch] where every process succeeds
    and only git prints something. *)
Definition quiet_host (branch : string) : Host :=
  {| process := fun _ cmd =>
       if String.eqb cmd "git rev-parse --abbrev-ref HEAD"
       then (branch +:+ String newline EmptyString, 0%Z)
       else (EmptyString, 0%Z);
     system := "Linux";
     decodestring := fun s => Some s |}.

(** The rows of the table of the specification, written from its words:
    the columns are engine channel, editor channel, release channel,
    make_release, default engine_artifacts and skip_editor_tests. *)
Module Table.

Definition row (engine editor release : option string) (make : bool)
    (artifacts : option string) (skip : bool) : BranchConfig :=
  {| engine_channel := engine; editor_channel := editor;
     release_channel := release; make_release := make;
     engine_artifacts := artifacts; skip_editor_tests := skip |}.

Definition master : BranchConfig :=
  row (Some "stable") (Some "editor-alpha") (Some "editor-stable") false
      (Some "archived") false.

Definition beta : BranchConfig :=
  row (Some "beta") (Some "beta") (Some "beta") true (Some "archived") false.

Definition dev : BranchConfig :=
  row (Some "alpha") (Some "alpha") (Some "alpha") true (Some "archived") false.

Definition editor_dev : BranchConfig :=
  row None (Some "editor-alpha") (Some "editor-alpha") true None false.

Definition defedit : BranchConfig :=
  row None None None false (Some "archived-stable") false.

Definition other : BranchConfig :=
  row (Some "dev") None None false (Some "archived") true.

End Table.

(** ** Reading a trace *)

(** The command lines of the processes spawned in a trace, in order. *)
Fixpoint spawned (t : list Event) : list string :=
  match t with
  | [] => []
  | EvSpawn cmd :: r => cmd :: spawned r
  | _ :: r => spawned r
  end.

(** The file events of a trace, in order. *)
Fixpoint file_events (t : list Event) : list Event :=
  match t with
  | [] => []
  | EvPrint _ :: r => file_events r
  | EvSpawn _ :: r => file_events r
  | e :: r => e :: file_events r
  end.

(** What is done in a trace, in order: its events other than prints. *)
Fixpoint actions (t : list Event) : list Event :=
  match t with
  | [] => []
  | EvPrint _ :: r => actions r
  | e :: r => e :: actions r
  end.

(** The lines that echo the output of a process. *)
Definition echo (out : string) : list Event :=
  map (fun line => EvPrint (rstrip line)) (readlines out).

(** Every spawn in [t] comes right after the print of its command line;
    [prev] is the line printed by the event just before [t], if that was a
    print. *)
Fixpoint logged_from (prev : option string) (t : list Event) : bool :=
  match t with
  | [] => true
  | EvSpawn cmd :: r =>
      match prev with
      | Some line => String.eqb line cmd
      | None => false
      end && logged_from None r
  | EvPrint line :: r => logged_from (Some line) r
  | _ :: r => logged_from None r
  end.

Definition logged (t : list Event) : Prop := logged_from None t = true.

(** A computation that only adds events, and adds spawns only right after
    the print of their command line. *)
Definition well_logged {A : Type} (m : M A) : Prop :=
  forall t, exists evs, snd (m t) = t ++ evs /\ logged evs.

(** The command line of an install with a certificate for the keychain. *)
Definition keychain_args (cert : string) (pass : option string) : Args :=
  {| args_commands := ["install"];
     args_platform := None;
     args_with_asan := false;
     args_with_valgrind := false;
     args_with_vanilla_lua := false;
     args_archive := false;
     args_skip_tests := false;
     args_skip_builtins := false;
     args_skip_docs := false;
     args_engine_artifacts := None;
     args_keychain_cert := Some cert;
     args_keychain_cert_pass := pass;
     args_notarization_username := None;
     args_notarization_password := None;
     args_notarization_itc_provider := None |}.

(** A host whose processes answer by their command line alone. *)
Definition scripted_host (system : string) (answer : string -> string * Z)
    (decode : string -> option string) : Host :=
  {| process := fun _ cmd => answer cmd;
     system := system;
     decodestring := decode |}.

(** Every process that the host starts exits with status 0. *)
Definition all_succeed (host : Host) : Prop :=
  forall t cmd, snd (process host t cmd) = 0%Z.

End Ci.

(** ** engine/resource/src/waf_resource.py *)

Module WafResource.
Import Py.

(** The values that the attributes of a task generator take here. *)
Inductive Value : Type :=
| VNone
| VBool (b : bool)
| VStr (s : string).

(** [bool(v)]. *)
Definition is_true (v : Value) : bool :=
  match v with
  | VNone => false
  | VBool b => b
  | VStr s => negb (String.eqb s EmptyString)
  end.

(** [v is None]. *)
Definition is_none (v : Value) : bool :=
  match v with
  | VNone => true
  | _ => false
  end.

(** ['%s' % v]. *)
Definition to_str (v : Value) : string :=
  match v with
  | VNone => "None"
  | VBool true => "True"
  | VBool false => "False"
  | VStr s => s
  end.

(** A variable of a Waf environment holds a string or a list. *)
Inductive EnvVal : Type :=
| EStr (s : string)
| EList (l : list Value).

Abbreviation Env := (gmap string EnvVal).

(** [env[var]]: a variable that is not set reads as the empty list. *)
Definition env_get (env : Env) (var : string) : EnvVal :=
  default (EList []) (env !! var).

(** The value of a variable as a list: a string counts as the list of
    itself. *)
Definition env_list (env : Env) (var : string) : list Value :=
  match env_get env var with
  | EList l => l
  | EStr s => [VStr s]
  end.

(** [env.append_value(var, value)] for a list [value]: the variable becomes
    its value as a list, extended by [value]. *)
Definition append_value (env : Env) (var : string) (value : list Value) : Env :=
  let current_value := env_list env var in
  <[var := EList (current_value ++ value)]> env.

(** [Utils.def_attrs(self, k = v)]: set the attribute unless it exists. *)
Definition def_attrs (attrs : gmap string Value) (k : string) (v : Value)
    : gmap string Value :=
  match attrs !! k with
  | Some _ => attrs
  | None => <[k := v]> attrs
  end.

Definition CONST_ARCHIVEBUILDER : string :=
  "${JAVA} -classpath ${CLASSPATH} com.dynamo.bob.archive.ArchiveBuilder".

Definition CONST_ARCHIVEBUILDER_ARGS : string :=
  "${ARCHIVEBUILDER_ROOT} ${ARCHIVEBUILDER_OUTPUT} ${ARCHIVEBUILDER_FLAGS} ${SRC}".

(** The command line registered for the task type [resource_archive]. *)
Definition resource_archive_command : string :=
  CONST_ARCHIVEBUILDER +:+ " " +:+ CONST_ARCHIVEBUILDER_ARGS.

Section WithBuild.

(** The parts of Python's [os] module and of Waf's nodes that the plugin
    calls: file nodes, [self.path.find_or_declare], [self.path.bldpath],
    [os.pathsep], [os.path.join] and [os.path.abspath]. *)
Variable Node : Type.
Variable find_or_declare : string -> Node.
Variable bldpath : Env -> string.
Variable pathsep : string.
Variable path_join : list string -> string.
Variable abspath : string -> string.

Record Task : Type := {
  task_type : string;
  task_env : Env;
  inputs : list Node;
  outputs : list Node;
  run_after : list nat   (* positions in the generator's task list *)
}.

(** A task generator: its attributes, its environment and its tasks. *)
Record TaskGen : Type := {
  attrs : gmap string Value;
  env : Env;
  tasks : list Task
}.

(** [self.k]. *)
Definition getattr (self : TaskGen) (k : string) : Outcome Value :=
  match attrs self !! k with
  | Some v => Done v
  | None => Raised (AttributeError k)
  end.

(** [self.create_task(name)]: a new task with a copy of the generator's
    environment, added at the end of [self.tasks]. *)
Definition create_task (self : TaskGen) (name : string) : Task :=
  {| task_type := name; task_env := env self;
     inputs := []; outputs := []; run_after := [] |}.

Definition apply_barchive_before (self : TaskGen) : TaskGen :=
  let a := def_attrs (attrs self) "source_root" VNone in
  let a := def_attrs a "resource_name" VNone in
  let a := def_attrs a "use_compression" (VBool false) in
  {| attrs := a; env := env self; tasks := tasks self |}.

(** The loop over [self.tasks] that makes the builder run after every other
    task and take their outputs as inputs; [i] is the position of the head
    of [ts], [b] the position of the builder itself. *)
Fixpoint wire_inputs (b i : nat) (ts : list Task) (builder : Task) : Task :=
  match ts with
  | [] => builder
  | task :: rest =>
      wire_inputs b (S i) rest
        (if Nat.eqb i b then builder
         else {| task_type := task_type builder; task_env := task_env builder;
                 inputs := inputs builder ++ outputs task;
                 outputs := outputs builder;
                 run_after := run_after builder ++ [i] |})
  end.

Definition with_env (t : Task) (e : Env) : Task :=
  {| task_type := task_type t; task_env := e;
     inputs := inputs t; outputs := outputs t; run_after := run_after t |}.

(** The generator once [create_task] has put [builder] at the end of
    [self.tasks]; what is done to the builder later is seen there. *)
Definition registered (self : TaskGen) (builder : Task) : TaskGen :=
  {| attrs := attrs self; env := env self; tasks := tasks self ++ [builder] |}.

(** Go on with the value of [o]; an exception of [o] ends the function and
    leaves the generator as [left]. *)
Definition attempt {A B : Type} (o : Outcome A) (left : TaskGen)
    (k : A -> Outcome B * TaskGen) : Outcome B * TaskGen :=
  match o with
  | Done a => k a
  | Raised e => (Raised e, left)
  | Exited c => (Exited c, left)
  end.

Notation "x <- o 'leaving' left ;; k" := (attempt o left (fun x => k))
  (at level 100, o at next level, left at next level, right associativity).

(** The result is how the function ends, with the messages given to
    [error], and the generator as the function leaves it, also when it
    raises. *)
Definition apply_barchive_after (self : TaskGen)
    : Outcome (list string) * TaskGen :=
  source_root <- getattr self "source_root" leaving self ;;
  if is_none source_root then (Done ["source_root is not specified!"], self)
  else
  resource_name <- getattr self "resource_name" leaving self ;;
  if is_none resource_name then (Done ["resource_name is not specified!"], self)
  else
  let b := length (tasks self) in
  let builder := create_task self "resource_archive" in
  let all_tasks := tasks self ++ [builder] in
  let builder := wire_inputs b 0 all_tasks builder in
  let builder :=
    {| task_type := task_type builder; task_env := task_env builder;
       inputs := inputs builder;
       outputs :=
         map (fun extension =>
                find_or_declare (to_str resource_name +:+ "." +:+ extension))
             ["dmanifest"; "arci"; "arcd"; "public"; "manifest_hash"];
       run_after := run_after builder |} in
  dynamo_home <-
    match env_get (env self) "DYNAMO_HOME" with
    | EStr s => Done s
    | EList _ => Raised (TypeError "can only concatenate list (not 'str') to list")
    end leaving registered self builder ;;
  let classpath := [dynamo_home +:+ "/share/java/bob-light.jar"; "default/src/java"] in
  let builder :=
    with_env builder
      (<["CLASSPATH" := EStr (join pathsep classpath)]> (task_env builder)) in
  let arg_root := source_root in
  name <-
    match resource_name with
    | VStr s => Done s
    | _ => Raised (AttributeError "startswith")
    end leaving registered self builder ;;
  let arg_output := abspath (path_join ["build"; bldpath (env self); name]) in
  let builder :=
    with_env builder
      (append_value (task_env builder) "ARCHIVEBUILDER_ROOT" [arg_root]) in
  let builder :=
    with_env builder
      (append_value (task_env builder) "ARCHIVEBUILDER_OUTPUT" [VStr arg_output]) in
  let builder :=
    with_env builder
      (append_value (task_env builder) "ARCHIVEBUILDER_FLAGS" [VStr "-m"]) in
  use_compression <- getattr self "use_compression" leaving registered self builder ;;
  let builder :=
    if is_true use_compression
    then with_env builder
           (append_value (task_env builder) "ARCHIVEBUILDER_FLAGS" [VStr "-c"])
    else builder in
  (Done [], registered self builder).

End WithBuild.

Arguments task_type {Node} _.
Arguments task_env {Node} _.
Arguments inputs {Node} _.
Arguments outputs {Node} _.
Arguments run_after {Node} _.
Arguments attrs {Node} _.
Arguments env {Node} _.
Arguments tasks {Node} _.
Arguments getattr {Node} self k.
Arguments create_task {Node} self name.
Arguments apply_barchive_before {Node} self.
Arguments wire_inputs {Node} b i ts builder.
Arguments with_env {Node} t e.
Arguments registered {Node} self builder.
Arguments attempt {Node A B} o left k.
Arguments apply_barchive_after {Node} find_or_declare bldpath pathsep path_join abspath self.

(** A build on a POSIX host, with nodes named by their paths: the
    directory of the generator builds into [default/content] and the
    working directory is [/defold]. *)
Module Posix.

Definition find_or_declare (name : string) : string := name.
Definition bldpath (_ : Env) : string := "default/content".
Definition pathsep : string := ":".
Definition path_join (parts : list string) : string := join "/" parts.
Definition abspath (p : string) : string := "/defold/" +:+ p.

(** A generator of the [barchive] feature that sets the two required
    attributes and nothing else. *)
Definition game_archive : TaskGen string :=
  {| attrs := <["source_root" := VStr "content"]>
                (<["resource_name" := VStr "game"]> ∅);
     env := <["DYNAMO_HOME" := EStr "/opt/dynamo"]> ∅;
     tasks := [] |}.

(** The same generator asking for compression, after two other tasks of
    it have been created. *)
Definition compiled_game : TaskGen string :=
  {| attrs := <["use_compression" := VBool true]>
                (<["source_root" := VStr "content"]>
                   (<["resource_name" := VStr "game"]> ∅));
     env := <["JAVA" := EStr "/usr/bin/java"]>
              (<["DYNAMO_HOME" := EStr "/opt/dynamo"]> ∅);
     tasks :=
       [{| task_type := "texture"; task_env := ∅;
           inputs := ["logo.png"]; outputs := ["logo.texturec"];
           run_after := [] |};
        {| task_type := "collection"; task_env := ∅;
           inputs := ["main.collection"];
           outputs := ["main.collectionc"; "main.goc"];
           run_after := [] |}] |}.

Definition run (self : TaskGen string) : Outcome (list string) * TaskGen string :=
  apply_barchive_after find_or_declare bldpath pathsep path_join abspath
    (apply_barchive_before self).

End Posix.

End WafResource.

(** * Properties of ci/ci.py *)

Module CiFacts.
Import Py Ci.

(** ** The branch configuration *)

Lemma eq_str_refl (s : string) : eq_str (Some s) s = true.
Proof. simpl. apply String.eqb_refl. Qed.

Lemma eq_str_neq (b s : string) : b ≠ s -> eq_str (Some b) s = false.
Proof. intros H. simpl. now apply String.eqb_neq. Qed.

Lemma or_default_none (d : string) : or_default None d = Some d.
Proof. reflexivity. Qed.

Lemma or_default_nonempty (o d : string) : o ≠ EmptyString -> or_default (Some o) d = Some o.
Proof. intros H. destruct o; [congruence | reflexivity]. Qed.

(** A name that starts with [DEFEDIT-] is none of the four exact names and
    is not empty. *)
Lemma defedit_prefix_head (b : string) :
  String.prefix "DEFEDIT-" b = true -> exists r, b = String "D" r.
Proof.
  destruct b as [|c r]; cbn [String.prefix]; [discriminate |].
  destruct (ascii_dec "D" c) as [<- | _]; [eauto | discriminate].
Qed.

(** [configure] never raises: the [startswith] lookup is only made on a
    non-empty string. *)
Lemma configure_total (args : Args) (branch : option string) :
  exists c, configure args branch = Done c.
Proof.
  unfold configure.
  do 4 (match goal with
        | |- context [if ?b then _ else _] =>
            destruct b; [eexists; reflexivity |]
        end).
  destruct branch as [[|c r]|]; cbn [truthy startswith obind];
    try (eexists; reflexivity).
  destruct (String.prefix _ _); eexists; reflexivity.
Qed.

(** The configuration of a branch that is none of the five named patterns. *)
Lemma configure_other (args : Args) (b : string) :
  b ≠ "master" -> b ≠ "beta" -> b ≠ "dev" -> b ≠ "editor-dev" ->
  String.prefix "DEFEDIT-" b = false ->
  configure args (Some b) =
    Done (Table.row (Some "dev") None None false
            (or_default (args_engine_artifacts args) "archived") true).
Proof.
  intros H1 H2 H3 H4 Hp. unfold configure.
  rewrite !eq_str_neq by assumption.
  destruct b as [|c r]; simpl; [reflexivity |].
  change (String.prefix "DEFEDIT-" (String c r)) with
    (match ascii_dec "D" c with left _ => String.prefix "EFEDIT-" r | right _ => false end).
  simpl in Hp. rewrite Hp. reflexivity.
Qed.

Lemma configure_defedit (args : Args) (b : string) :
  String.prefix "DEFEDIT-" b = true ->
  configure args (Some b) =
    Done (Table.row None None None false
            (or_default (args_engine_artifacts args) "archived-stable") false).
Proof.
  intros Hp. destruct (defedit_prefix_head b Hp) as [r ->].
  unfold configure. cbn [eq_str truthy startswith obind].
  replace (String.eqb (String "D" r) "master") with false by reflexivity.
  replace (String.eqb (String "D" r) "beta") with false by reflexivity.
  replace (String.eqb (String "D" r) "dev") with false by reflexivity.
  replace (String.eqb (String "D" r) "editor-dev") with false by reflexivity.
  rewrite Hp. reflexivity.
Qed.

(** C1: for each of the six branch categories, taken in the order of the
    code, and with no --engine-artifacts given, the configuration that
    [main] derives is the row of the table: master, beta, dev, editor-dev,
    a name starting with DEFEDIT-, and any other name. *)
Theorem configure_table :
  (forall args, args_engine_artifacts args = None ->
     configure args (Some "master") = Done Table.master) /\
  (forall args, args_engine_artifacts args = None ->
     configure args (Some "beta") = Done Table.beta) /\
  (forall args, args_engine_artifacts args = None ->
     configure args (Some "dev") = Done Table.dev) /\
  (forall args, args_engine_artifacts args = None ->
     configure args (Some "editor-dev") = Done Table.editor_dev) /\
  (forall args b, args_engine_artifacts args = None ->
     String.prefix "DEFEDIT-" b = true ->
     configure args (Some b) = Done Table.defedit) /\
  (forall args b, args_engine_artifacts args = None ->
     b ≠ "master" -> b ≠ "beta" -> b ≠ "dev" -> b ≠ "editor-dev" ->
     String.prefix "DEFEDIT-" b = false ->
     configure args (Some b) = Done Table.other).
Proof.
  repeat split.
  - intros args H. unfold configure. simpl. now rewrite H.
  - intros args H. unfold configure. simpl. now rewrite H.
  - intros args H. unfold configure. simpl. now rewrite H.
  - intros args H. unfold configure. simpl. now rewrite H.
  - intros args b H Hp. rewrite configure_defedit by assumption. now rewrite H.
  - intros args b H H1 H2 H3 H4 Hp. rewrite configure_other by assumption.
    now rewrite H.
Qed.

Lemma configure_table_witness :
  configure (plain_args ["engine"] None None) (Some "master") = Done Table.master /\
  configure (plain_args ["engine"] None None) (Some "beta") = Done Table.beta /\
  configure (plain_args ["engine"] None None) (Some "dev") = Done Table.dev /\
  configure (plain_args ["engine"] None None) (Some "editor-dev") = Done Table.editor_dev /\
  configure (plain_args ["engine"] None None) (Some "DEFEDIT-1234") = Done Table.defedit /\
  configure (plain_args ["engine"] None None) (Some "release/foo") = Done Table.other.
Proof.
  destruct configure_table as (H1 & H2 & H3 & H4 & H5 & H6).
  split; [apply H1; reflexivity |].
  split; [apply H2; reflexivity |].
  split; [apply H3; reflexivity |].
  split; [apply H4; reflexivity |].
  split; [apply H5; reflexivity |].
  apply H6; try reflexivity; discriminate.
Defined.

(** C2, as stated, fails: an empty --engine-artifacts is given on the
    command line, and on master the configuration holds "archived". *)
Lemma empty_override_counterexample :
  let args := plain_args ["build-editor"] None (Some EmptyString) in
  args_engine_artifacts args = Some EmptyString /\
  exists c, configure args (Some "master") = Done c /\
            engine_artifacts c = Some "archived" /\
            engine_artifacts c ≠ args_engine_artifacts args.
Proof.
  split; [reflexivity |].
  exists Table.master. repeat split. discriminate.
Qed.

Lemma eq_str_eq (branch : option string) (s : string) :
  eq_str branch s = true -> branch = Some s.
Proof.
  destruct branch as [b|]; cbn [eq_str]; [| discriminate].
  intros H. apply String.eqb_eq in H. now subst.
Qed.

(** C2, amended: a non-empty --engine-artifacts is the engine_artifacts of
    the configuration on every branch (absent included); on editor-dev so
    is any --engine-artifacts, the empty one too; an empty one on any other
    branch gives way to the default of the branch, archived-stable for a
    name starting with DEFEDIT- and archived otherwise. *)
Theorem override_wins (args : Args) (branch : option string) (o : string) :
  args_engine_artifacts args = Some o ->
  exists c,
    configure args branch = Done c /\
    (o ≠ EmptyString -> engine_artifacts c = Some o) /\
    (branch = Some "editor-dev" -> engine_artifacts c = Some o) /\
    (o = EmptyString -> branch ≠ Some "editor-dev" ->
     engine_artifacts c
     = Some (if match branch with
                | Some b => String.prefix "DEFEDIT-" b
                | None => false
                end
             then "archived-stable" else "archived")).
Proof.
  intros Ho. unfold configure. rewrite Ho.
  destruct (eq_str branch "master") eqn:E1.
  { apply eq_str_eq in E1. subst branch. eexists. split; [reflexivity |].
    cbn [engine_artifacts]. split; [| split].
    - intros Hne. now apply or_default_nonempty.
    - discriminate.
    - intros -> _. reflexivity. }
  destruct (eq_str branch "beta") eqn:E2.
  { apply eq_str_eq in E2. subst branch. eexists. split; [reflexivity |].
    cbn [engine_artifacts]. split; [| split].
    - intros Hne. now apply or_default_nonempty.
    - discriminate.
    - intros -> _. reflexivity. }
  destruct (eq_str branch "dev") eqn:E3.
  { apply eq_str_eq in E3. subst branch. eexists. split; [reflexivity |].
    cbn [engine_artifacts]. split; [| split].
    - intros Hne. now apply or_default_nonempty.
    - discriminate.
    - intros -> _. reflexivity. }
  destruct (eq_str branch "editor-dev") eqn:E4.
  { apply eq_str_eq in E4. subst branch. eexists. split; [reflexivity |].
    cbn [engine_artifacts]. split; [| split].
    - reflexivity.
    - reflexivity.
    - intros _ H. now destruct H. }
  assert (Hed : branch ≠ Some "editor-dev").
  { intros ->. vm_compute in E4. discriminate. }
  destruct branch as [[|x r]|]; cbn [truthy startswith obind].
  - eexists. split; [reflexivity |]. cbn [engine_artifacts]. split; [| split].
    + intros Hne. now apply or_default_nonempty.
    + intros H. now destruct Hed.
    + intros -> _. reflexivity.
  - destruct (String.prefix "DEFEDIT-" (String x r)) eqn:P;
      (eexists; split; [reflexivity |]); cbn [engine_artifacts];
      (split; [| split]);
      [ intros Hne; now apply or_default_nonempty
      | intros H; now destruct Hed
      | intros -> _; reflexivity
      | intros Hne; now apply or_default_nonempty
      | intros H; now destruct Hed
      | intros -> _; reflexivity ].
  - eexists. split; [reflexivity |]. cbn [engine_artifacts]. split; [| split].
    + intros Hne. now apply or_default_nonempty.
    + intros H. now destruct Hed.
    + intros -> _. reflexivity.
Qed.

Lemma override_wins_witness :
  (exists c,
     configure (plain_args ["build-editor"] None (Some "local")) (Some "DEFEDIT-1234")
     = Done c /\
     engine_artifacts c = Some "local") /\
  (exists c,
     configure (plain_args ["build-editor"] None (Some EmptyString)) (Some "editor-dev")
     = Done c /\
     engine_artifacts c = Some EmptyString) /\
  (exists c,
     configure (plain_args ["build-editor"] None (Some EmptyString)) (Some "DEFEDIT-1234")
     = Done c /\
     engine_artifacts c = Some "archived-stable").
Proof.
  split; [| split].
  - destruct (override_wins (plain_args ["build-editor"] None (Some "local"))
                (Some "DEFEDIT-1234") "local" eq_refl) as (c & Hc & H & _).
    exists c. split; [exact Hc | apply H; discriminate].
  - destruct (override_wins (plain_args ["build-editor"] None (Some EmptyString))
                (Some "editor-dev") EmptyString eq_refl) as (c & Hc & _ & H & _).
    exists c. split; [exact Hc | apply H; reflexivity].
  - destruct (override_wins (plain_args ["build-editor"] None (Some EmptyString))
                (Some "DEFEDIT-1234") EmptyString eq_refl) as (c & Hc & _ & _ & H).
    exists c. split; [exact Hc | apply H; [reflexivity | discriminate]].
Defined.

(** C3: a branch name that is none of master, beta, dev, editor-dev and
    does not start with DEFEDIT- gets make_release = false and
    skip_editor_tests = true. *)
Theorem other_branch_flags (args : Args) (b : string) :
  b ≠ "master" -> b ≠ "beta" -> b ≠ "dev" -> b ≠ "editor-dev" ->
  String.prefix "DEFEDIT-" b = false ->
  exists c, configure args (Some b) = Done c /\
            make_release c = false /\ skip_editor_tests c = true.
Proof.
  intros H1 H2 H3 H4 Hp. eexists. split.
  - now apply configure_other.
  - split; reflexivity.
Qed.

Lemma other_branch_flags_witness :
  exists c, configure (plain_args ["release"] None None) (Some "release/foo") = Done c /\
            make_release c = false /\ skip_editor_tests c = true.
Proof.
  apply (other_branch_flags (plain_args ["release"] None None) "release/foo");
    try discriminate; reflexivity.
Defined.

(** C4: with an absent or an empty branch name [configure] raises nothing
    and gives the default row: engine channel dev, no editor channel, no
    release, editor tests skipped, and engine_artifacts "archived" (which
    is what [or_default] makes of an absent --engine-artifacts). *)
Theorem configure_no_branch (args : Args) (branch : option string) :
  branch = None \/ branch = Some EmptyString ->
  exists c, configure args branch = Done c /\
            engine_channel c = Some "dev" /\
            editor_channel c = None /\
            release_channel c = None /\
            make_release c = false /\
            skip_editor_tests c = true /\
            engine_artifacts c = or_default (args_engine_artifacts args) "archived".
Proof.
  intros [-> | ->]; eexists; (split; [reflexivity |]); repeat split.
Qed.

Lemma configure_no_branch_witness :
  exists c, configure (plain_args ["bob"] None None) None = Done c /\
            engine_channel c = Some "dev" /\
            editor_channel c = None /\
            release_channel c = None /\
            make_release c = false /\
            skip_editor_tests c = true /\
            engine_artifacts c = Some "archived".
Proof.
  apply (configure_no_branch (plain_args ["bob"] None None) None).
  left; reflexivity.
Defined.

(** C9: the configuration is a function of the branch and of
    --engine-artifacts alone: two command lines that agree on
    --engine-artifacts get the same result on the same branch, a result
    there always is, and computing it leaves the trace as it was. *)
Theorem configure_deterministic (args1 args2 : Args) (branch : option string) :
  args_engine_artifacts args1 = args_engine_artifacts args2 ->
  configure args1 branch = configure args2 branch /\
  (exists c, configure args1 branch = Done c) /\
  (forall t, snd (lift (configure args1 branch) t) = t).
Proof.
  intros H. split; [| split].
  - unfold configure. now rewrite H.
  - apply configure_total.
  - reflexivity.
Qed.

Lemma configure_deterministic_witness :
  configure (plain_args ["engine"] (Some "x86_64-linux") (Some "local")) (Some "dev")
  = configure (plain_args ["release"; "bob"] None (Some "local")) (Some "dev").
Proof.
  apply (configure_deterministic
           (plain_args ["engine"] (Some "x86_64-linux") (Some "local"))
           (plain_args ["release"; "bob"] None (Some "local")) (Some "dev")).
  reflexivity.
Defined.

(** ** The command loop *)

Lemma for_each_app {A : Type} (l1 l2 : list A) (body : A -> M unit) (t : list Event) :
  for_each (l1 ++ l2) body t = (for_each l1 body ;; for_each l2 body) t.
Proof.
  revert t. induction l1 as [|x l1 IH]; intros t.
  - reflexivity.
  - cbn [app for_each]. unfold bind.
    destruct (body x t) as [[[]|e|c] t']; [| reflexivity | reflexivity].
    rewrite IH. reflexivity.
Qed.

Lemma known_command_neq (c k : string) :
  c ∉ known_commands -> k ∈ known_commands -> String.eqb c k = false.
Proof. intros Hc Hk. apply String.eqb_neq. intros ->. contradiction. Qed.

Lemma exec_command_unknown (host : Host) (args : Args) (cfg : BranchConfig)
    (branch : option string) (c : string) (t : list Event) :
  c ∉ known_commands ->
  exec_command host args cfg branch c t
  = (Done tt, t ++ [EvPrint ("Unknown command " +:+ c)]).
Proof.
  intros Hc. unfold exec_command.
  repeat rewrite (known_command_neq c) by
    (try assumption; unfold known_commands; repeat constructor).
  reflexivity.
Qed.

Lemma exec_command_engine_no_platform (host : Host) (args : Args)
    (cfg : BranchConfig) (branch : option string) (t : list Event) :
  truthy (args_platform args) = false ->
  exec_command host args cfg branch "engine" t
  = (Raised (Exception "No --platform specified."), t).
Proof. intros H. unfold exec_command. cbn [String.eqb Ascii.eqb Bool.eqb]. rewrite H. reflexivity. Qed.

Lemma run_commands_engine_no_platform (host : Host) (args : Args)
    (cfg : BranchConfig) (branch : option string) (pre post : list string)
    (t : list Event) :
  truthy (args_platform args) = false ->
  run_commands host args cfg branch (pre ++ "engine" :: post) t
  = match run_commands host args cfg branch pre t with
    | (Done _, t') => (Raised (Exception "No --platform specified."), t')
    | r => r
    end.
Proof.
  intros H. unfold run_commands. rewrite for_each_app. unfold bind at 1.
  destruct (for_each pre _ t) as [[[]|e|c] t']; try reflexivity.
  cbn [for_each]. unfold bind.
  rewrite exec_command_engine_no_platform by assumption. reflexivity.
Qed.

(** C5: with make_release = false the release command only prints that the
    branch is not configured for release: it ends normally and the trace
    grows by that one line, so no process is spawned. *)
Theorem release_noop (host : Host) (args : Args) (cfg : BranchConfig)
    (branch : option string) (t : list Event) :
  make_release cfg = false ->
  exec_command host args cfg branch "release" t
  = (Done tt,
     t ++ [EvPrint ("Branch '" +:+ str branch
                    +:+ "' is not configured for automatic release from CI")]).
Proof.
  intros H. unfold exec_command. cbn [String.eqb Ascii.eqb Bool.eqb].
  rewrite H. reflexivity.
Qed.

Lemma release_noop_witness :
  exec_command (quiet_host "master") (plain_args ["release"] None None)
    Table.master (Some "master") "release" []
  = (Done tt,
     [EvPrint "Branch 'master' is not configured for automatic release from CI"]).
Proof.
  apply (release_noop (quiet_host "master") (plain_args ["release"] None None)
           Table.master (Some "master") []).
  reflexivity.
Defined.

(** C6, as stated, fails: [main] asks git for the branch before it looks at
    the commands, so a process has been spawned when engine without
    --platform aborts. *)
Lemma engine_abort_counterexample :
  main (quiet_host "dev") (plain_args ["engine"] None None) []
  = (Raised (Exception "No --platform specified."),
     [EvPrint "git rev-parse --abbrev-ref HEAD";
      EvSpawn "git rev-parse --abbrev-ref HEAD";
      EvPrint "dev";
      EvPrint "Using branch=dev engine_channel=alpha editor_channel=alpha engine_artifacts=archived"]).
Proof. vm_compute. reflexivity. Qed.

(** C6, amended: when engine is among the commands and --platform is absent
    or empty, [main] does exactly what it does for the commands listed
    before engine, and then, unless it has already ended, raises the
    missing-argument error.  Neither engine nor a later command adds an
    event; the branch lookup and the earlier commands do spawn theirs. *)
Theorem engine_without_platform (host : Host) (args : Args)
    (pre post : list string) (t : list Event) :
  truthy (args_platform args) = false ->
  args_commands args = pre ++ "engine" :: post ->
  main host args t
  = (match fst (main host (set_commands args pre) t) with
     | Done _ => Raised (Exception "No --platform specified.")
     | o => o
     end,
     snd (main host (set_commands args pre) t)).
Proof.
  intros Hp Hc. unfold main. rewrite Hc.
  change (configure (set_commands args pre)) with (configure args).
  change (args_commands (set_commands args pre)) with pre.
  change (run_commands host (set_commands args pre))
    with (run_commands host args).
  unfold bind, lift.
  destruct (get_branch host t) as [[b|e|c] t1]; try reflexivity.
  destruct (configure args (Some b)) as [cfg|e|c]; try reflexivity.
  destruct (print _ t1) as [[[]|e|c] t2]; try reflexivity.
  rewrite run_commands_engine_no_platform by assumption.
  destruct (run_commands host args cfg (Some b) pre t2) as [[[]|e|c] t3];
    reflexivity.
Qed.

Lemma engine_without_platform_witness :
  main (quiet_host "dev") (plain_args ["smoke"; "engine"; "bob"] None None) []
  = (Raised (Exception "No --platform specified."),
     snd (main (quiet_host "dev") (plain_args ["smoke"] None None) [])).
Proof.
  apply (engine_without_platform (quiet_host "dev")
           (plain_args ["smoke"; "engine"; "bob"] None None) ["smoke"] ["bob"] []);
    reflexivity.
Defined.

(** C7: a command outside the known ones prints "Unknown command" and ends
    normally; the loop goes on with the commands after it, and runs those
    before it as if it were not there. *)
Theorem unknown_command_reported (host : Host) (args : Args) (cfg : BranchConfig)
    (branch : option string) (pre post : list string) (c : string)
    (t : list Event) :
  c ∉ known_commands ->
  exec_command host args cfg branch c t
  = (Done tt, t ++ [EvPrint ("Unknown command " +:+ c)]) /\
  run_commands host args cfg branch (pre ++ c :: post) t
  = (run_commands host args cfg branch pre ;;
     print ("Unknown command " +:+ c) ;;
     run_commands host args cfg branch post) t.
Proof.
  intros Hc. split; [now apply exec_command_unknown |].
  unfold run_commands. rewrite for_each_app. unfold bind.
  destruct (for_each pre _ t) as [[[]|e|k] t']; try reflexivity.
  cbn [for_each]. unfold bind.
  rewrite exec_command_unknown by assumption. reflexivity.
Qed.

Lemma unknown_command_reported_witness :
  run_commands (quiet_host "dev") (plain_args ["smoke"; "frobnicate"; "bob"] None None)
    Table.dev (Some "dev") (["smoke"] ++ "frobnicate" :: ["bob"]) []
  = (run_commands (quiet_host "dev") (plain_args ["smoke"; "frobnicate"; "bob"] None None)
       Table.dev (Some "dev") ["smoke"] ;;
     print "Unknown command frobnicate" ;;
     run_commands (quiet_host "dev") (plain_args ["smoke"; "frobnicate"; "bob"] None None)
       Table.dev (Some "dev") ["bob"]) [].
Proof.
  apply (unknown_command_reported (quiet_host "dev")
           (plain_args ["smoke"; "frobnicate"; "bob"] None None)
           Table.dev (Some "dev") ["smoke"] ["bob"] "frobnicate" []).
  unfold known_commands. intros H.
  repeat (apply elem_of_cons in H; destruct H as [H | H]; [discriminate |]).
  now apply elem_of_nil in H.
Defined.

(** ** The engine build *)

Lemma in_master_beta (branch : option string) :
  in_list branch ["master"; "beta"] = true <->
  branch = Some "master" \/ branch = Some "beta".
Proof.
  unfold in_list. cbn [existsb]. rewrite orb_false_r, orb_true_iff.
  destruct branch as [b|]; cbn [eq_str].
  - rewrite !String.eqb_eq. split; intros [H | H]; [left | right | left | right];
      congruence.
  - split; intros [H | H]; discriminate.
Qed.

(** On master a plain engine build asks waf for valgrind. *)
Example engine_on_master :
  main (quiet_host "master") (plain_args ["engine"] (Some "x86_64-linux") None) []
  = (Done tt,
     [EvPrint "git rev-parse --abbrev-ref HEAD";
      EvSpawn "git rev-parse --abbrev-ref HEAD";
      EvPrint "master";
      EvPrint "Using branch=master engine_channel=stable editor_channel=editor-alpha engine_artifacts=archived";
      EvPrint "python scripts/build.py distclean install_ext build_engine --platform=x86_64-linux --channel=stable --skip-codesign -- --with-valgrind";
      EvSpawn "python scripts/build.py distclean install_ext build_engine --platform=x86_64-linux --channel=stable --skip-codesign -- --with-valgrind"]).
Proof. vm_compute. reflexivity. Qed.

(** C10: with a platform given, the engine command on master or beta is
    [build_engine] with with_valgrind true, whatever --with-valgrind says;
    on any other branch, absent included, with_valgrind is the
    --with-valgrind of the command line. *)
Theorem engine_valgrind (host : Host) (args : Args) (cfg : BranchConfig)
    (branch : option string) :
  truthy (args_platform args) = true ->
  (branch = Some "master" \/ branch = Some "beta" ->
   exec_command host args cfg branch "engine"
   = build_engine host (str (args_platform args))
       true (args_with_asan args) (args_with_vanilla_lua args)
       (args_skip_tests args) true (args_skip_docs args)
       (args_skip_builtins args) (args_archive args) (engine_channel cfg)) /\
  (branch ≠ Some "master" -> branch ≠ Some "beta" ->
   exec_command host args cfg branch "engine"
   = build_engine host (str (args_platform args))
       (args_with_valgrind args) (args_with_asan args) (args_with_vanilla_lua args)
       (args_skip_tests args) true (args_skip_docs args)
       (args_skip_builtins args) (args_archive args) (engine_channel cfg)).
Proof.
  intros Hp. unfold exec_command. cbn [String.eqb Ascii.eqb Bool.eqb].
  rewrite Hp. cbn [negb]. split.
  - intros H. apply in_master_beta in H. rewrite H, orb_true_r. reflexivity.
  - intros H1 H2.
    destruct (in_list branch ["master"; "beta"]) eqn:E.
    + apply in_master_beta in E. destruct E; contradiction.
    + rewrite orb_false_r. reflexivity.
Qed.

Lemma engine_valgrind_witness :
  exec_command (quiet_host "beta") (plain_args ["engine"] (Some "x86_64-linux") None)
    Table.beta (Some "beta") "engine"
  = build_engine (quiet_host "beta") "x86_64-linux"
      true false false false true false false false (Some "beta") /\
  exec_command (quiet_host "dev") (plain_args ["engine"] (Some "x86_64-linux") None)
    Table.dev (Some "dev") "engine"
  = build_engine (quiet_host "dev") "x86_64-linux"
      false false false false true false false false (Some "alpha").
Proof.
  split.
  - apply (engine_valgrind (quiet_host "beta")
             (plain_args ["engine"] (Some "x86_64-linux") None)
             Table.beta (Some "beta")); [reflexivity | right; reflexivity].
  - apply (engine_valgrind (quiet_host "dev")
             (plain_args ["engine"] (Some "x86_64-linux") None)
             Table.dev (Some "dev")); [reflexivity | discriminate | discriminate].
Defined.

End CiFacts.

(** * Properties of waf_resource.py *)

Module WafResourceFacts.
Import Py WafResource.

Lemma env_list_append_value (e : Env) (var : string) (value : list Value) :
  env_list (append_value e var value) var = env_list e var ++ value.
Proof.
  unfold append_value. unfold env_list at 1, env_get.
  now rewrite lookup_insert_eq.
Qed.

Lemma env_list_append_value_ne (e : Env) (var var' : string) (value : list Value) :
  var ≠ var' ->
  env_list (append_value e var value) var' = env_list e var'.
Proof.
  intros H. unfold append_value, env_list, env_get.
  now rewrite lookup_insert_ne.
Qed.

Lemma env_list_insert_ne (e : Env) (var var' : string) (v : EnvVal) :
  var ≠ var' ->
  env_list (<[var := v]> e) var' = env_list e var'.
Proof.
  intros H. unfold env_list, env_get. now rewrite lookup_insert_ne.
Qed.

Lemma wire_inputs_env {Node : Type} (b i : nat) (ts : list (Task Node))
    (builder : Task Node) :
  task_env (wire_inputs b i ts builder) = task_env builder /\
  task_type (wire_inputs b i ts builder) = task_type builder.
Proof.
  revert i builder. induction ts as [|task rest IH]; intros i builder.
  - split; reflexivity.
  - cbn [wire_inputs]. destruct (IH (S i)
      (if Nat.eqb i b then builder
       else {| task_type := task_type builder; task_env := task_env builder;
               inputs := inputs builder ++ outputs task;
               outputs := outputs builder;
               run_after := run_after builder ++ [i] |})) as [He Ht].
    rewrite He, Ht. destruct (Nat.eqb i b); split; reflexivity.
Qed.

Lemma def_attrs_lookup_ne (a : gmap string Value) (k k' : string) (v : Value) :
  k ≠ k' -> def_attrs a k v !! k' = a !! k'.
Proof.
  intros H. unfold def_attrs. destruct (a !! k); [reflexivity |].
  now rewrite lookup_insert_ne.
Qed.

Lemma def_attrs_lookup_unset (a : gmap string Value) (k : string) (v : Value) :
  a !! k = None -> def_attrs a k v !! k = Some v.
Proof. intros H. unfold def_attrs. rewrite H. apply lookup_insert_eq. Qed.

Lemma def_attrs_lookup_set (a : gmap string Value) (k : string) (v w : Value) :
  a !! k = Some w -> def_attrs a k v !! k = Some w.
Proof. intros H. unfold def_attrs. now rewrite H. Qed.

(** Without [use_compression] the attribute defaults to [False]. *)
Lemma use_compression_default {Node : Type} (self : TaskGen Node) :
  attrs self !! "use_compression" = None ->
  attrs (apply_barchive_before self) !! "use_compression" = Some (VBool false).
Proof.
  intros H. unfold apply_barchive_before. cbn [attrs].
  apply def_attrs_lookup_unset.
  rewrite !def_attrs_lookup_ne by discriminate. exact H.
Qed.

(** C8, as stated, fails: a generator that does not ask for compression
    gets a builder whose flags are -m alone. *)
Lemma no_compress_flag_counterexample :
  fst (Posix.run Posix.game_archive) = Done [] /\
  map (fun t => env_list (task_env t) "ARCHIVEBUILDER_FLAGS")
      (tasks (snd (Posix.run Posix.game_archive)))
  = [[VStr "-m"]].
Proof. vm_compute. split; reflexivity. Qed.

(** C8, amended: [apply_barchive_after] ends without an error exactly when
    source_root is set and not None, resource_name is a string,
    use_compression is defined and DYNAMO_HOME is a string of the
    environment.  The builder it then registers has the source root
    appended to ARCHIVEBUILDER_ROOT, the output path to
    ARCHIVEBUILDER_OUTPUT, and to ARCHIVEBUILDER_FLAGS -m always and -c
    only when use_compression is true. *)
Theorem archive_builder_arguments {Node : Type}
    (find_or_declare : string -> Node) (bldpath : Env -> string)
    (pathsep : string) (path_join : list string -> string)
    (abspath : string -> string) (self : TaskGen Node) :
  (forall (root uc : Value) (name home : string),
     attrs self !! "source_root" = Some root ->
     root ≠ VNone ->
     attrs self !! "resource_name" = Some (VStr name) ->
     attrs self !! "use_compression" = Some uc ->
     env self !! "DYNAMO_HOME" = Some (EStr home) ->
     exists builder,
       apply_barchive_after find_or_declare bldpath pathsep path_join abspath self
       = (Done [], {| attrs := attrs self; env := env self;
                      tasks := tasks self ++ [builder] |}) /\
       task_type builder = "resource_archive" /\
       env_list (task_env builder) "ARCHIVEBUILDER_ROOT"
       = env_list (env self) "ARCHIVEBUILDER_ROOT" ++ [root] /\
       env_list (task_env builder) "ARCHIVEBUILDER_OUTPUT"
       = env_list (env self) "ARCHIVEBUILDER_OUTPUT"
         ++ [VStr (abspath (path_join ["build"; bldpath (env self); name]))] /\
       env_list (task_env builder) "ARCHIVEBUILDER_FLAGS"
       = env_list (env self) "ARCHIVEBUILDER_FLAGS"
         ++ VStr "-m" :: (if is_true uc then [VStr "-c"] else [])) /\
  (forall self',
     apply_barchive_after find_or_declare bldpath pathsep path_join abspath self
     = (Done [], self') ->
     exists (root uc : Value) (name home : string),
       attrs self !! "source_root" = Some root /\
       root ≠ VNone /\
       attrs self !! "resource_name" = Some (VStr name) /\
       attrs self !! "use_compression" = Some uc /\
       env self !! "DYNAMO_HOME" = Some (EStr home)).
Proof.
  split.
  - intros root uc name home Hroot Hnone Hname Huc Hhome.
    unfold apply_barchive_after, getattr, attempt.
    rewrite Hroot, Hname, Huc. cbn [is_none].
    replace (is_none root) with false
      by (destruct root; [now destruct Hnone | reflexivity | reflexivity]).
    unfold env_get at 1. rewrite Hhome. cbn [default].
    eexists. split; [reflexivity |].
    destruct (wire_inputs_env (length (tasks self)) 0
                (tasks self ++ [create_task self "resource_archive"])
                (create_task self "resource_archive")) as [He Ht].
    destruct (is_true uc); cbn [task_type task_env with_env];
      rewrite He, Ht; cbn [create_task task_env task_type];
      (split; [reflexivity |]);
      repeat split;
      repeat first
        [ rewrite env_list_append_value
        | rewrite env_list_append_value_ne by discriminate
        | rewrite env_list_insert_ne by discriminate ];
      rewrite <- ?app_assoc; reflexivity.
  - intros self'. unfold apply_barchive_after, getattr, attempt.
    destruct (attrs self !! "source_root") as [root|] eqn:Hroot; [| discriminate].
    destruct (is_none root) eqn:Nroot; [discriminate |].
    destruct (attrs self !! "resource_name") as [rname|] eqn:Hname; [| discriminate].
    destruct (is_none rname) eqn:Nname; [discriminate |].
    unfold env_get at 1.
    destruct (env self !! "DYNAMO_HOME") as [[home|l]|] eqn:Hhome;
      cbn [default]; try discriminate.
    destruct rname as [|b|name]; try discriminate.
    destruct (attrs self !! "use_compression") as [uc|] eqn:Huc; [| discriminate].
    intros _. exists root, uc, name, home.
    repeat split. intros ->. discriminate.
Qed.

Lemma archive_builder_arguments_witness :
  exists builder,
    Posix.run Posix.game_archive
    = (Done [], {| attrs := attrs (apply_barchive_before Posix.game_archive);
                   env := env (apply_barchive_before Posix.game_archive);
                   tasks := [builder] |}) /\
    task_type builder = "resource_archive" /\
    env_list (task_env builder) "ARCHIVEBUILDER_ROOT" = [VStr "content"] /\
    env_list (task_env builder) "ARCHIVEBUILDER_OUTPUT"
    = [VStr "/defold/build/default/content/game"] /\
    env_list (task_env builder) "ARCHIVEBUILDER_FLAGS" = [VStr "-m"].
Proof.
  apply (proj1 (archive_builder_arguments Posix.find_or_declare Posix.bldpath
                  Posix.pathsep Posix.path_join Posix.abspath
                  (apply_barchive_before Posix.game_archive))
           (VStr "content") (VBool false) "game" "/opt/dynamo");
    try reflexivity.
  discriminate.
Defined.

End WafResourceFacts.

(** * Further properties of ci/ci.py *)

Module CiTraces.
Import Py Ci CiFacts.

(** ** Reading the output of a process *)

Lemma append_assoc3 (a b c : string) : (a +:+ b) +:+ c = a +:+ (b +:+ c).
Proof.
  induction a as [|x a IH]; [reflexivity |].
  change (String x ((a +:+ b) +:+ c) = String x (a +:+ (b +:+ c))).
  now rewrite IH.
Qed.

Lemma append_empty_r (a : string) : a +:+ EmptyString = a.
Proof.
  induction a as [|x a IH]; [reflexivity |].
  change (String x (a +:+ EmptyString) = String x a). now rewrite IH.
Qed.

(** Putting the lines back together gives the stream. *)
Lemma readlines_join (s : string) :
  fold_right String.append EmptyString (readlines s) = s.
Proof.
  induction s as [|c s IH]; [reflexivity |].
  cbn [readlines]. destruct (Ascii.eqb c newline).
  - cbn [fold_right]. rewrite IH. reflexivity.
  - destruct (readlines s) as [|l ls].
    + cbn [fold_right] in *. now rewrite <- IH.
    + cbn [fold_right] in *. rewrite <- IH. reflexivity.
Qed.

Lemma read_output_spec (lines : list string) (output : string)
    (t : list Event) :
  read_output lines output t
  = (Done (output +:+ fold_right String.append EmptyString lines),
     t ++ map (fun line => EvPrint (rstrip line)) lines).
Proof.
  revert output t. induction lines as [|l lines IH]; intros output t.
  - cbn [read_output fold_right map]. unfold ret.
    now rewrite append_empty_r, app_nil_r.
  - cbn [read_output fold_right map]. unfold bind, print, emit.
    rewrite IH, append_assoc3, <- app_assoc. reflexivity.
Qed.

(** What [call] does, in full. *)
Lemma call_spec (host : Host) (args : string) (failonerror : bool)
    (t : list Event) :
  call host args failonerror t
  = (if negb (Z.eqb (snd (process host (t ++ [EvPrint args]) args)) 0) && failonerror
     then Exited 1
     else Done (fst (process host (t ++ [EvPrint args]) args)),
     t ++ [EvPrint args; EvSpawn args]
       ++ echo (fst (process host (t ++ [EvPrint args]) args))).
Proof.
  unfold call, bind, print, emit, spawn. rewrite read_output_spec.
  rewrite readlines_join. unfold echo.
  replace ((t ++ [EvPrint args]) ++ [EvSpawn args])
    with (t ++ [EvPrint args; EvSpawn args]) by now rewrite <- app_assoc.
  rewrite <- app_assoc.
  destruct (negb _ && failonerror); reflexivity.
Qed.

Lemma spawned_app (t u : list Event) : spawned (t ++ u) = spawned t ++ spawned u.
Proof.
  induction t as [|[] t IH]; cbn [app spawned]; rewrite ?IH; reflexivity.
Qed.

Lemma file_events_app (t u : list Event) :
  file_events (t ++ u) = file_events t ++ file_events u.
Proof.
  induction t as [|[] t IH]; cbn [app file_events]; rewrite ?IH; reflexivity.
Qed.

Lemma spawned_echo (out : string) : spawned (echo out) = [].
Proof. unfold echo. induction (readlines out); [reflexivity | assumption]. Qed.

Lemma file_events_echo (out : string) : file_events (echo out) = [].
Proof. unfold echo. induction (readlines out); [reflexivity | assumption]. Qed.

(** What a [call] leaves in the trace: one more process, no file event. *)
Lemma call_effects (host : Host) (args : string) (failonerror : bool)
    (t : list Event) :
  spawned (snd (call host args failonerror t)) = spawned t ++ [args] /\
  file_events (snd (call host args failonerror t)) = file_events t.
Proof.
  rewrite call_spec. cbn [snd].
  rewrite !spawned_app, !file_events_app, spawned_echo, file_events_echo.
  cbn [spawned file_events]. now rewrite !app_nil_r.
Qed.

Lemma call_succeeds (host : Host) (args : string) (failonerror : bool)
    (t : list Event) :
  snd (process host (t ++ [EvPrint args]) args) = 0%Z ->
  fst (call host args failonerror t)
  = Done (fst (process host (t ++ [EvPrint args]) args)).
Proof. intros H. rewrite call_spec, H. reflexivity. Qed.

Lemma call_fails (host : Host) (args : string) (t : list Event) :
  snd (process host (t ++ [EvPrint args]) args) ≠ 0%Z ->
  fst (call host args true t) = Exited 1.
Proof.
  intros H. rewrite call_spec. cbn [fst].
  apply Z.eqb_neq in H. now rewrite H.
Qed.

(** X1: [call] prints the command line, starts the process and echoes its
    output line by line; it then exits with status 1 when the process
    failed and failonerror is set, and otherwise returns the output of the
    process unchanged. *)
Theorem call_outcome (host : Host) (args : string) (failonerror : bool)
    (t : list Event) :
  fst (call host args failonerror t)
  = (if failonerror && negb (Z.eqb (snd (process host (t ++ [EvPrint args]) args)) 0)
     then Exited 1
     else Done (fst (process host (t ++ [EvPrint args]) args))) /\
  snd (call host args failonerror t)
  = t ++ EvPrint args :: EvSpawn args
         :: echo (fst (process host (t ++ [EvPrint args]) args)).
Proof.
  rewrite call_spec. cbn [fst snd]. rewrite andb_comm. split; reflexivity.
Qed.

(** X2: on a named branch [get_branch] starts one git process and returns
    its output without the surrounding whitespace. *)
Theorem get_branch_named (host : Host) (t : list Event) :
  snd (process host (t ++ [EvPrint "git rev-parse --abbrev-ref HEAD"])
         "git rev-parse --abbrev-ref HEAD") = 0%Z ->
  strip (fst (process host (t ++ [EvPrint "git rev-parse --abbrev-ref HEAD"])
                "git rev-parse --abbrev-ref HEAD")) ≠ "HEAD" ->
  fst (get_branch host t)
  = Done (strip (fst (process host (t ++ [EvPrint "git rev-parse --abbrev-ref HEAD"])
                        "git rev-parse --abbrev-ref HEAD"))) /\
  spawned (snd (get_branch host t))
  = spawned t ++ ["git rev-parse --abbrev-ref HEAD"].
Proof.
  intros H0 Hn. unfold get_branch, bind.
  pose proof (call_effects host "git rev-parse --abbrev-ref HEAD" true t) as [Hs _].
  pose proof (call_succeeds host "git rev-parse --abbrev-ref HEAD" true t H0) as Hc.
  destruct (call host "git rev-parse --abbrev-ref HEAD" true t) as [o t1].
  cbn [fst snd] in *. subst o.
  apply String.eqb_neq in Hn. rewrite Hn. unfold ret. cbn [fst snd].
  split; [reflexivity | assumption].
Qed.

Lemma get_branch_named_witness :
  fst (get_branch (quiet_host "  dev") []) = Done "dev" /\
  spawned (snd (get_branch (quiet_host "  dev") []))
  = ["git rev-parse --abbrev-ref HEAD"].
Proof.
  apply (get_branch_named (quiet_host "  dev") []); [reflexivity |].
  vm_compute. discriminate.
Defined.

(** X3: with a detached HEAD (git answers HEAD) [get_branch] starts a
    second git process and returns its output as it is, trailing newline
    included; if that process fails it exits with status 1. *)
Theorem get_branch_detached (host : Host) (t : list Event) (out : string) :
  process host (t ++ [EvPrint "git rev-parse --abbrev-ref HEAD"])
    "git rev-parse --abbrev-ref HEAD" = (out, 0%Z) ->
  strip out = "HEAD" ->
  get_branch host t
  = call host "git rev-parse HEAD" true
      (t ++ EvPrint "git rev-parse --abbrev-ref HEAD"
         :: EvSpawn "git rev-parse --abbrev-ref HEAD" :: echo out) /\
  fst (get_branch host t)
  = (let t1 := t ++ EvPrint "git rev-parse --abbrev-ref HEAD"
                 :: EvSpawn "git rev-parse --abbrev-ref HEAD" :: echo out in
     let r := process host (t1 ++ [EvPrint "git rev-parse HEAD"])
                "git rev-parse HEAD" in
     if negb (Z.eqb (snd r) 0) then Exited 1 else Done (fst r)) /\
  spawned (snd (get_branch host t))
  = spawned t ++ ["git rev-parse --abbrev-ref HEAD"; "git rev-parse HEAD"].
Proof.
  intros H Hs.
  assert (E : get_branch host t
              = call host "git rev-parse HEAD" true
                  (t ++ EvPrint "git rev-parse --abbrev-ref HEAD"
                     :: EvSpawn "git rev-parse --abbrev-ref HEAD" :: echo out)).
  { unfold get_branch, bind. rewrite call_spec, H. cbn [fst snd Z.eqb negb andb].
    rewrite Hs. reflexivity. }
  split; [exact E |]. rewrite E. split.
  - rewrite call_spec. cbn [fst]. now rewrite andb_true_r.
  - destruct (call_effects host "git rev-parse HEAD" true
                (t ++ EvPrint "git rev-parse --abbrev-ref HEAD"
                   :: EvSpawn "git rev-parse --abbrev-ref HEAD" :: echo out))
      as [-> _].
    rewrite spawned_app. cbn [spawned]. rewrite spawned_echo, <- app_assoc.
    reflexivity.
Qed.

Lemma get_branch_detached_witness :
  fst (get_branch
         (scripted_host "Linux"
            (fun cmd => if String.eqb cmd "git rev-parse HEAD"
                        then ("0f3a9c" +:+ String newline EmptyString, 0%Z)
                        else ("HEAD" +:+ String newline EmptyString, 0%Z))
            (fun s => Some s)) [])
  = Done ("0f3a9c" +:+ String newline EmptyString).
Proof.
  apply (get_branch_detached
           (scripted_host "Linux"
              (fun cmd => if String.eqb cmd "git rev-parse HEAD"
                          then ("0f3a9c" +:+ String newline EmptyString, 0%Z)
                          else ("HEAD" +:+ String newline EmptyString, 0%Z))
              (fun s => Some s)) []
           ("HEAD" +:+ String newline EmptyString));
    reflexivity.
Defined.

(** X4: when git fails, [main] exits with status 1 after echoing what git
    printed: it neither prints the configuration nor runs a command. *)
Theorem main_git_failure (host : Host) (args : Args) (t : list Event) :
  snd (process host (t ++ [EvPrint "git rev-parse --abbrev-ref HEAD"])
         "git rev-parse --abbrev-ref HEAD") ≠ 0%Z ->
  main host args t
  = (Exited 1,
     t ++ EvPrint "git rev-parse --abbrev-ref HEAD"
       :: EvSpawn "git rev-parse --abbrev-ref HEAD"
       :: echo (fst (process host (t ++ [EvPrint "git rev-parse --abbrev-ref HEAD"])
                       "git rev-parse --abbrev-ref HEAD"))).
Proof.
  intros H. unfold main, get_branch, bind. rewrite call_spec.
  apply Z.eqb_neq in H. rewrite H. reflexivity.
Qed.

Lemma main_git_failure_witness :
  main (scripted_host "Linux" (fun _ => ("fatal: not a git repository", 128%Z))
          (fun s => Some s))
       (plain_args ["engine"; "bob"] (Some "x86_64-linux") None) []
  = (Exited 1,
     [EvPrint "git rev-parse --abbrev-ref HEAD";
      EvSpawn "git rev-parse --abbrev-ref HEAD";
      EvPrint "fatal: not a git repository"]).
Proof.
  apply (main_git_failure
           (scripted_host "Linux" (fun _ => ("fatal: not a git repository", 128%Z))
              (fun s => Some s))
           (plain_args ["engine"; "bob"] (Some "x86_64-linux") None) []).
  discriminate.
Defined.

(** ** Commands that fail *)

(** X5: the loop stops at the first command that does not end normally:
    the outcome and the trace of the program are those of that command,
    and the commands after it add nothing. *)
Theorem run_commands_stops (host : Host) (args : Args) (cfg : BranchConfig)
    (branch : option string) (pre post : list string) (c : string)
    (t t1 : list Event) :
  run_commands host args cfg branch pre t = (Done tt, t1) ->
  fst (exec_command host args cfg branch c t1) ≠ Done tt ->
  run_commands host args cfg branch (pre ++ c :: post) t
  = exec_command host args cfg branch c t1.
Proof.
  intros Hpre Hc. unfold run_commands in *. rewrite for_each_app.
  unfold bind. rewrite Hpre. cbn [for_each]. unfold bind.
  destruct (exec_command host args cfg branch c t1) as [[[]|e|k] t2];
    [now destruct Hc | reflexivity | reflexivity].
Qed.

Lemma run_commands_stops_witness :
  run_commands (quiet_host "dev") (plain_args [] None None) Table.dev (Some "dev")
    (["release-notes"] ++ "notarize-editor" :: ["bob"; "sdk"]) []
  = exec_command (quiet_host "dev") (plain_args [] None None) Table.dev (Some "dev")
      "notarize-editor" [EvPrint "Unknown command release-notes"].
Proof.
  apply (run_commands_stops (quiet_host "dev") (plain_args [] None None)
           Table.dev (Some "dev") ["release-notes"] ["bob"; "sdk"]
           "notarize-editor" [] [EvPrint "Unknown command release-notes"]).
  - reflexivity.
  - vm_compute. discriminate.
Defined.

(** X6: notarize-editor without a user name or without a password (absent
    or empty) prints one line and exits with status 1; no process is
    started. *)
Theorem notarize_without_credentials (host : Host) (args : Args)
    (cfg : BranchConfig) (branch : option string) (t : list Event) :
  truthy (args_notarization_username args) = false \/
  truthy (args_notarization_password args) = false ->
  exec_command host args cfg branch "notarize-editor" t
  = (Exited 1, t ++ [EvPrint "No notarization username or password"]).
Proof.
  intros H. unfold exec_command. cbn [String.eqb Ascii.eqb Bool.eqb].
  unfold notarize_editor2.
  replace (negb (truthy (args_notarization_username args))
           || negb (truthy (args_notarization_password args))) with true.
  - reflexivity.
  - destruct H as [-> | ->]; [reflexivity | now rewrite orb_true_r].
Qed.

Lemma notarize_without_credentials_witness :
  exec_command (quiet_host "dev") (plain_args ["notarize-editor"] None None)
    Table.dev (Some "dev") "notarize-editor" []
  = (Exited 1, [EvPrint "No notarization username or password"]).
Proof.
  apply (notarize_without_credentials (quiet_host "dev")
           (plain_args ["notarize-editor"] None None) Table.dev (Some "dev") []).
  left; reflexivity.
Defined.

(** ** Stepping through a sequence of calls *)

Lemma call_step_ok (host : Host) (args : string) (failonerror : bool)
    (t : list Event) :
  snd (process host (t ++ [EvPrint args]) args) = 0%Z ->
  exists out t',
    call host args failonerror t = (Done out, t') /\
    spawned t' = spawned t ++ [args] /\
    file_events t' = file_events t.
Proof.
  intros H. destruct (call_effects host args failonerror t) as [Hs Hf].
  pose proof (call_succeeds host args failonerror t H) as Hc.
  destruct (call host args failonerror t) as [o t']. cbn [fst snd] in *.
  subst o. eauto.
Qed.

Lemma call_step_any (host : Host) (args : string) (t : list Event) :
  exists out t',
    call host args false t = (Done out, t') /\
    spawned t' = spawned t ++ [args] /\
    file_events t' = file_events t.
Proof.
  destruct (call_effects host args false t) as [Hs Hf].
  assert (Hc : fst (call host args false t)
               = Done (fst (process host (t ++ [EvPrint args]) args))).
  { rewrite call_spec. cbn [fst]. now rewrite andb_false_r. }
  destruct (call host args false t) as [o t']. cbn [fst snd] in *.
  subst o. eauto.
Qed.

Lemma call_step_fail (host : Host) (args : string) (t : list Event) :
  snd (process host (t ++ [EvPrint args]) args) ≠ 0%Z ->
  exists t',
    call host args true t = (Exited 1, t') /\
    spawned t' = spawned t ++ [args] /\
    file_events t' = file_events t.
Proof.
  intros H. destruct (call_effects host args true t) as [Hs Hf].
  pose proof (call_fails host args t H) as Hc.
  destruct (call host args true t) as [o t']. cbn [fst snd] in *.
  subst o. eauto.
Qed.

Lemma spawned_print (t : list Event) (line : string) :
  spawned (t ++ [EvPrint line]) = spawned t.
Proof. rewrite spawned_app. apply app_nil_r. Qed.

Lemma file_events_print (t : list Event) (line : string) :
  file_events (t ++ [EvPrint line]) = file_events t.
Proof. rewrite file_events_app. apply app_nil_r. Qed.

(** Take the next [call] of the goal, which succeeds by [tac]. *)
Ltac next_call_ok tac :=
  match goal with
  | |- context [call ?h ?c ?b ?t] =>
      let out := fresh "out" in
      let t' := fresh "t" in
      let E := fresh "E" in
      let S := fresh "S" in
      let F := fresh "F" in
      destruct (call_step_ok h c b t) as (out & t' & E & S & F);
      [tac | rewrite E; clear E; cbv beta iota]
  end.

(** X7: where the host is neither Linux nor a Darwin with a certificate to
    import, install only says which system it found. *)
Theorem install_nothing_to_do (host : Host) (args : Args) (t : list Event) :
  system host ≠ "Linux" ->
  system host ≠ "Darwin" \/ truthy (args_keychain_cert args) = false ->
  install host args t
  = (Done tt,
     t ++ [EvPrint ("Installing dependencies for system '" +:+ system host +:+ "' ")]).
Proof.
  intros HL HD. unfold install, bind, print, emit.
  apply String.eqb_neq in HL. rewrite HL.
  destruct HD as [HD | HD].
  - apply String.eqb_neq in HD. rewrite HD. reflexivity.
  - rewrite HD. destruct (String.eqb (system host) "Darwin"); reflexivity.
Qed.

Lemma install_nothing_to_do_witness :
  install (scripted_host "Windows" (fun _ => (EmptyString, 1%Z)) (fun s => Some s))
    (plain_args ["install"] None None) []
  = (Done tt, [EvPrint "Installing dependencies for system 'Windows' "]).
Proof.
  apply (install_nothing_to_do
           (scripted_host "Windows" (fun _ => (EmptyString, 1%Z)) (fun s => Some s))
           (plain_args ["install"] None None) []).
  - discriminate.
  - left. discriminate.
Defined.

(** X8: on Linux a failing [apt-get update] does not stop install: when
    every other step succeeds, install ends normally after its eight
    processes. *)
Theorem install_linux_update_may_fail (host : Host) (args : Args) (t : list Event) :
  system host = "Linux" ->
  (forall t cmd, cmd ≠ "sudo apt-get update" -> snd (process host t cmd) = 0%Z) ->
  fst (install host args t) = Done tt /\
  spawned (snd (install host args t))
  = spawned t ++
    ["sudo add-apt-repository ppa:apt-fast/stable";
     "sudo apt-get update";
     "echo debconf apt-fast/maxdownloads string 16 | sudo debconf-set-selections";
     "echo debconf apt-fast/dlflag boolean true | sudo debconf-set-selections";
     "echo debconf apt-fast/aptmanager string apt-get | sudo debconf-set-selections";
     "sudo apt-get install -y apt-fast aria2";
     "sudo apt-get install -y software-properties-common";
     "sudo apt-fast install -y --no-install-recommends libssl-dev openssl libtool autoconf automake build-essential uuid-dev libxi-dev libopenal-dev libgl1-mesa-dev libglw1-mesa-dev freeglut3-dev tofrodos tree valgrind lib32z1 xvfb"].
Proof.
  intros HL Hok. unfold install, aptfast, bind, print, emit. rewrite HL.
  cbv beta iota. change (String.eqb "Linux" "Linux") with true. cbv beta iota.
  next_call_ok ltac:(apply Hok; discriminate).
  destruct (call_step_any host "sudo apt-get update" t0) as (o1 & t1 & E1 & S1 & F1).
  rewrite E1. cbv beta iota.
  do 5 next_call_ok ltac:(apply Hok; discriminate).
  match goal with
  | |- context [call host ?c true ?u] =>
      destruct (call_step_ok host c true u) as (o8 & t8 & E8 & S8 & F8);
      [apply Hok; vm_compute; discriminate | rewrite E8]
  end.
  cbn [fst snd ret]. split; [reflexivity |].
  repeat match goal with
         | H : spawned _ = _ |- _ => rewrite H; clear H
         end.
  rewrite spawned_print, <- !app_assoc. reflexivity.
Qed.

Lemma install_linux_update_may_fail_witness :
  fst (install
         (scripted_host "Linux"
            (fun cmd => if String.eqb cmd "sudo apt-get update"
                        then ("E: Failed to fetch", 100%Z) else (EmptyString, 0%Z))
            (fun s => Some s))
         (plain_args ["install"] None None) [])
  = Done tt.
Proof.
  apply (install_linux_update_may_fail
           (scripted_host "Linux"
              (fun cmd => if String.eqb cmd "sudo apt-get update"
                          then ("E: Failed to fetch", 100%Z) else (EmptyString, 0%Z))
              (fun s => Some s))
           (plain_args ["install"] None None) []).
  - reflexivity.
  - intros t cmd H. cbn. apply String.eqb_neq in H. rewrite H. reflexivity.
Defined.

(** ** The certificate file of the keychain setup *)

Lemma actions_app (t u : list Event) : actions (t ++ u) = actions t ++ actions u.
Proof.
  induction t as [|[] t IH]; cbn [app actions]; rewrite ?IH; reflexivity.
Qed.

Lemma actions_echo (out : string) : actions (echo out) = [].
Proof. unfold echo. induction (readlines out); [reflexivity | assumption]. Qed.

Lemma call_actions (host : Host) (args : string) (failonerror : bool)
    (t : list Event) :
  actions (snd (call host args failonerror t)) = actions t ++ [EvSpawn args].
Proof.
  rewrite call_spec. cbn [snd]. rewrite !actions_app, actions_echo.
  cbn [actions]. now rewrite app_nil_r.
Qed.

Lemma call_run_ok (host : Host) (args : string) (failonerror : bool)
    (t : list Event) :
  snd (process host (t ++ [EvPrint args]) args) = 0%Z ->
  exists out t',
    call host args failonerror t = (Done out, t') /\
    actions t' = actions t ++ [EvSpawn args].
Proof.
  intros H. pose proof (call_actions host args failonerror t) as Ha.
  pose proof (call_succeeds host args failonerror t H) as Hc.
  destruct (call host args failonerror t) as [o t']. cbn [fst snd] in *.
  subst o. eauto.
Qed.

Lemma call_run_fail (host : Host) (args : string) (t : list Event) :
  snd (process host (t ++ [EvPrint args]) args) ≠ 0%Z ->
  exists t',
    call host args true t = (Exited 1, t') /\
    actions t' = actions t ++ [EvSpawn args].
Proof.
  intros H. pose proof (call_actions host args true t) as Ha.
  pose proof (call_fails host args t H) as Hc.
  destruct (call host args true t) as [o t']. cbn [fst snd] in *.
  subst o. eauto.
Qed.

(** Take the next [call] of the goal, which succeeds by [tac], and keep
    what it did. *)
Ltac next_run_ok tac :=
  match goal with
  | |- context [call ?h ?c ?b ?t] =>
      let out := fresh "out" in
      let t' := fresh "t" in
      let E := fresh "E" in
      let A := fresh "A" in
      destruct (call_run_ok h c b t) as (out & t' & E & A);
      [tac | rewrite E; clear E; cbv beta iota]
  end.

(** Read the actions of the trace of the goal off what each call did. *)
Ltac collect_actions :=
  repeat first
    [ match goal with
      | H : actions _ = _ |- _ => rewrite H; clear H
      end
    | rewrite actions_app; cbn [actions] ];
  rewrite ?app_nil_r, <- ?app_assoc; cbn [app].

(** X9: when every process succeeds and the certificate decodes,
    [setup_keychain] ends normally, and what it does is, in this order:
    create, select and unlock the keychain; create the certificate file
    and write the decoded certificate to it; import it; remove the file;
    and three more settings of the keychain. *)
Theorem keychain_certificate_removed (host : Host) (args : Args)
    (cert data : string) (t : list Event) :
  all_succeed host ->
  args_keychain_cert args = Some cert ->
  decodestring host cert = Some data ->
  fst (setup_keychain host args t) = Done tt /\
  actions (snd (setup_keychain host args t))
  = actions t ++
    [EvSpawn "security create-keychain -p foobar defold.keychain";
     EvSpawn "security default-keychain -s defold.keychain";
     EvSpawn "security unlock-keychain -p foobar defold.keychain";
     EvCreate "ci/cert.p12";
     EvWrite "ci/cert.p12" data;
     EvSpawn ("security import ci/cert.p12 -k defold.keychain -P "
              +:+ str (args_keychain_cert_pass args) +:+ " -A");
     EvRemove "ci/cert.p12";
     EvSpawn "security set-key-partition-list -S apple-tool:,apple:,codesign: -s -k foobar defold.keychain";
     EvSpawn "security set-keychain-settings defold.keychain";
     EvSpawn "security list-keychains -d user -s defold.keychain"].
Proof.
  intros Hok Hc Hd. unfold setup_keychain, bind. rewrite Hc, Hd.
  unfold print, emit, ret. cbv beta iota.
  do 7 next_run_ok ltac:(apply Hok).
  cbn [fst snd]. split; [reflexivity |].
  collect_actions. reflexivity.
Qed.

Lemma keychain_certificate_removed_witness :
  fst (setup_keychain
         (scripted_host "Darwin" (fun _ => (EmptyString, 0%Z))
            (fun s => if String.eqb s "UEtDUzEy" then Some "PKCS12" else None))
         (keychain_args "UEtDUzEy" (Some "secret")) [])
  = Done tt /\
  actions
    (snd (setup_keychain
            (scripted_host "Darwin" (fun _ => (EmptyString, 0%Z))
               (fun s => if String.eqb s "UEtDUzEy" then Some "PKCS12" else None))
            (keychain_args "UEtDUzEy" (Some "secret")) []))
  = [EvSpawn "security create-keychain -p foobar defold.keychain";
     EvSpawn "security default-keychain -s defold.keychain";
     EvSpawn "security unlock-keychain -p foobar defold.keychain";
     EvCreate "ci/cert.p12";
     EvWrite "ci/cert.p12" "PKCS12";
     EvSpawn "security import ci/cert.p12 -k defold.keychain -P secret -A";
     EvRemove "ci/cert.p12";
     EvSpawn "security set-key-partition-list -S apple-tool:,apple:,codesign: -s -k foobar defold.keychain";
     EvSpawn "security set-keychain-settings defold.keychain";
     EvSpawn "security list-keychains -d user -s defold.keychain"].
Proof.
  apply (keychain_certificate_removed
           (scripted_host "Darwin" (fun _ => (EmptyString, 0%Z))
              (fun s => if String.eqb s "UEtDUzEy" then Some "PKCS12" else None))
           (keychain_args "UEtDUzEy" (Some "secret")) "UEtDUzEy" "PKCS12" []).
  - intros t cmd. reflexivity.
  - reflexivity.
  - reflexivity.
Defined.

(** X10: when the import of the certificate fails, [setup_keychain] exits
    with status 1 right after it: the decoded certificate has been written
    to ci/cert.p12 and the file is not removed. *)
Theorem keychain_certificate_left (host : Host) (args : Args)
    (cert data : string) (t : list Event) :
  (forall t cmd, String.prefix "security import " cmd = false ->
                 snd (process host t cmd) = 0%Z) ->
  (forall t cmd, String.prefix "security import " cmd = true ->
                 snd (process host t cmd) ≠ 0%Z) ->
  args_keychain_cert args = Some cert ->
  decodestring host cert = Some data ->
  fst (setup_keychain host args t) = Exited 1 /\
  actions (snd (setup_keychain host args t))
  = actions t ++
    [EvSpawn "security create-keychain -p foobar defold.keychain";
     EvSpawn "security default-keychain -s defold.keychain";
     EvSpawn "security unlock-keychain -p foobar defold.keychain";
     EvCreate "ci/cert.p12";
     EvWrite "ci/cert.p12" data;
     EvSpawn ("security import ci/cert.p12 -k defold.keychain -P "
              +:+ str (args_keychain_cert_pass args) +:+ " -A")].
Proof.
  intros Hok Hfail Hc Hd. unfold setup_keychain, bind. rewrite Hc, Hd.
  unfold print, emit, ret. cbv beta iota.
  do 3 next_run_ok ltac:(apply Hok; reflexivity).
  match goal with
  | |- context [call host ?c true ?u] =>
      destruct (call_run_fail host c u) as (t' & E & A');
      [apply Hfail; reflexivity | rewrite E]
  end.
  cbn [fst snd]. split; [reflexivity |].
  collect_actions. reflexivity.
Qed.

Lemma keychain_certificate_left_witness :
  fst (setup_keychain
         (scripted_host "Darwin"
            (fun cmd => (EmptyString,
                         if String.prefix "security import " cmd then 1%Z else 0%Z))
            (fun s => if String.eqb s "UEtDUzEy" then Some "PKCS12" else None))
         (keychain_args "UEtDUzEy" (Some "wrong")) []) = Exited 1 /\
  actions
    (snd (setup_keychain
            (scripted_host "Darwin"
               (fun cmd => (EmptyString,
                            if String.prefix "security import " cmd then 1%Z else 0%Z))
               (fun s => if String.eqb s "UEtDUzEy" then Some "PKCS12" else None))
            (keychain_args "UEtDUzEy" (Some "wrong")) []))
  = [EvSpawn "security create-keychain -p foobar defold.keychain";
     EvSpawn "security default-keychain -s defold.keychain";
     EvSpawn "security unlock-keychain -p foobar defold.keychain";
     EvCreate "ci/cert.p12";
     EvWrite "ci/cert.p12" "PKCS12";
     EvSpawn "security import ci/cert.p12 -k defold.keychain -P wrong -A"].
Proof.
  apply (keychain_certificate_left
           (scripted_host "Darwin"
              (fun cmd => (EmptyString,
                           if String.prefix "security import " cmd then 1%Z else 0%Z))
              (fun s => if String.eqb s "UEtDUzEy" then Some "PKCS12" else None))
           (keychain_args "UEtDUzEy" (Some "wrong")) "UEtDUzEy" "PKCS12" []).
  - intros t cmd H. cbn. rewrite H. reflexivity.
  - intros t cmd H. cbn. rewrite H. discriminate.
  - reflexivity.
  - reflexivity.
Defined.



(** ** Building and fetching the editor *)

Lemma for_each_calls (host : Host) (f : string -> string) (l : list string)
    (t : list Event) :
  all_succeed host ->
  exists t',
    for_each l (fun x => call host (f x) true ;; ret tt) t = (Done tt, t') /\
    spawned t' = spawned t ++ map f l /\
    file_events t' = file_events t.
Proof.
  intros Hok. revert t. induction l as [|x l IH]; intros t.
  - exists t. cbn [for_each map]. unfold ret. now rewrite app_nil_r.
  - cbn [for_each map]. unfold bind.
    destruct (call_step_ok host (f x) true t (Hok _ _)) as (out & t1 & E & S & F).
    rewrite E. unfold ret. cbv beta iota.
    destruct (IH t1) as (t2 & E2 & S2 & F2). exists t2.
    unfold bind, ret in E2. rewrite E2, S2, S, F2, F, <- app_assoc.
    repeat split.
Qed.

Lemma platform_from_host_desktop (host : Host) :
  existsb (String.eqb (platform_from_host host)) PLATFORMS_DESKTOP = true.
Proof.
  unfold platform_from_host.
  destruct (String.eqb (system host) "Linux"); [reflexivity |].
  destruct (String.eqb (system host) "Darwin"); reflexivity.
Qed.

(** X12: the platform of the host is always one of the desktop platforms,
    so [build_editor2] never returns early: when every process succeeds it
    builds the editor for the host platform and then bundles it for the
    three desktop platforms, in the order of PLATFORMS_DESKTOP. *)
Theorem build_editor2_spawns (host : Host) (channel engine_artifacts : option string)
    (skip_tests : bool) (t : list Event) :
  all_succeed host ->
  let opts_string :=
    join " " (when (truthy engine_artifacts)
                ["--engine-artifacts=" +:+ str engine_artifacts]
              ++ when (truthy channel) ["--channel=" +:+ str channel]
              ++ when skip_tests ["--skip-tests"]) in
  platform_from_host host ∈ PLATFORMS_DESKTOP /\
  fst (build_editor2 host channel engine_artifacts skip_tests t) = Done tt /\
  spawned (snd (build_editor2 host channel engine_artifacts skip_tests t))
  = spawned t ++
    ["python scripts/build.py distclean install_ext build_editor2 --platform="
       +:+ platform_from_host host +:+ " " +:+ opts_string;
     "python scripts/build.py bundle_editor2 --platform=x86_64-linux "
       +:+ opts_string;
     "python scripts/build.py bundle_editor2 --platform=x86_64-win32 "
       +:+ opts_string;
     "python scripts/build.py bundle_editor2 --platform=x86_64-darwin "
       +:+ opts_string].
Proof.
  intros Hok opts_string. split.
  - unfold platform_from_host, PLATFORMS_DESKTOP.
    destruct (String.eqb (system host) "Linux"); [set_solver |].
    destruct (String.eqb (system host) "Darwin"); set_solver.
  - unfold build_editor2. rewrite platform_from_host_desktop. cbn [negb].
    fold opts_string. unfold bind.
    next_call_ok ltac:(apply Hok).
    destruct (for_each_calls host
                (fun platform =>
                   "python scripts/build.py bundle_editor2 --platform="
                   +:+ platform +:+ " " +:+ opts_string)
                PLATFORMS_DESKTOP t0 Hok) as (t1 & E1 & S1 & F1).
    unfold bind in E1. rewrite E1. cbn [fst snd]. split; [reflexivity |].
    rewrite S1, S, <- app_assoc. reflexivity.
Qed.

Lemma build_editor2_spawns_witness :
  spawned (snd (build_editor2
                  (scripted_host "Windows" (fun _ => (EmptyString, 0%Z))
                     (fun s => Some s))
                  (Some "alpha") (Some "archived") false []))
  = ["python scripts/build.py distclean install_ext build_editor2 --platform=x86_64-win32 --engine-artifacts=archived --channel=alpha";
     "python scripts/build.py bundle_editor2 --platform=x86_64-linux --engine-artifacts=archived --channel=alpha";
     "python scripts/build.py bundle_editor2 --platform=x86_64-win32 --engine-artifacts=archived --channel=alpha";
     "python scripts/build.py bundle_editor2 --platform=x86_64-darwin --engine-artifacts=archived --channel=alpha"].
Proof.
  apply (build_editor2_spawns
           (scripted_host "Windows" (fun _ => (EmptyString, 0%Z)) (fun s => Some s))
           (Some "alpha") (Some "archived") false []).
  intros t cmd. reflexivity.
Defined.

(** X13: download-editor with a --platform, even an empty one, starts one
    download, for that platform; the check that engine makes on --platform
    is not made here. *)
Theorem download_editor_given_platform (host : Host) (args : Args)
    (cfg : BranchConfig) (branch : option string) (p : string) (t : list Event) :
  args_platform args = Some p ->
  spawned (snd (exec_command host args cfg branch "download-editor" t))
  = spawned t ++
    ["python scripts/build.py download_editor2 --platform=" +:+ p +:+ " "
       +:+ join " " (when (truthy (editor_channel cfg))
                       ["--channel=" +:+ str (editor_channel cfg)])].
Proof.
  intros Hp. unfold exec_command. cbn [String.eqb Ascii.eqb Bool.eqb].
  unfold download_editor2. rewrite Hp. cbn [for_each]. unfold bind.
  match goal with
  | |- context [call host ?c true t] =>
      destruct (call_effects host c true t) as [S _];
      destruct (call host c true t) as [[o|e|k] t1]
  end; cbn [fst snd ret] in *; exact S.
Qed.

Lemma download_editor_given_platform_witness :
  spawned (snd (exec_command (quiet_host "dev")
                  (plain_args ["download-editor"] (Some EmptyString) None)
                  Table.dev (Some "dev") "download-editor" []))
  = ["python scripts/build.py download_editor2 --platform= --channel=alpha"].
Proof.
  apply (download_editor_given_platform (quiet_host "dev")
           (plain_args ["download-editor"] (Some EmptyString) None)
           Table.dev (Some "dev") EmptyString []).
  reflexivity.
Defined.

(** ** Every process is announced *)

Lemma logged_from_weaken (prev : option string) (t : list Event) :
  logged_from None t = true -> logged_from prev t = true.
Proof. destruct t as [|[] t]; cbn [logged_from]; try discriminate; auto. Qed.

Lemma logged_from_app (prev : option string) (t u : list Event) :
  logged_from prev t = true -> logged_from None u = true ->
  logged_from prev (t ++ u) = true.
Proof.
  revert prev. induction t as [|e t IH]; intros prev Ht Hu.
  - now apply logged_from_weaken.
  - destruct e; cbn [app logged_from] in *; auto.
    apply andb_true_iff in Ht as [H1 H2]. rewrite H1. cbn [andb]. auto.
Qed.

Lemma logged_from_echo (prev : option string) (out : string) :
  logged_from prev (echo out) = true.
Proof.
  unfold echo. revert prev.
  induction (readlines out) as [|l ls IH]; intros prev; [reflexivity |].
  cbn [map logged_from]. apply IH.
Qed.

(** In a logged trace a spawn is never first and follows the print of its
    own command line. *)
Lemma logged_from_lookup (prev : option string) (t : list Event) (i : nat)
    (cmd : string) :
  logged_from prev t = true ->
  t !! i = Some (EvSpawn cmd) ->
  (i = 0 /\ prev = Some cmd) \/
  (exists j, i = S j /\ t !! j = Some (EvPrint cmd)).
Proof.
  revert prev i. induction t as [|e t IH]; intros prev i Ht Hi; [discriminate |].
  destruct i as [|i].
  - cbn in Hi. injection Hi as ->. cbn [logged_from] in Ht.
    apply andb_true_iff in Ht as [H1 _]. left. split; [reflexivity |].
    destruct prev as [line|]; [| discriminate].
    apply String.eqb_eq in H1. now subst.
  - right. exists i. split; [reflexivity |]. cbn in Hi.
    assert (Hn : exists p, logged_from p t = true /\
                           (p = None \/ e = EvPrint (default EmptyString p))).
    { destruct e; cbn [logged_from] in Ht;
        try (exists None; split; [assumption | now left]).
      - exists (Some line). split; [assumption | now right].
      - apply andb_true_iff in Ht as [_ H2]. exists None. split; [assumption | now left]. }
    destruct Hn as (p & Hl & Hp).
    destruct (IH p i Hl Hi) as [[-> Hprev] | (j & -> & Hj)].
    + destruct Hp as [-> | ->]; [discriminate |]. subst p. reflexivity.
    + exact Hj.
Qed.

Lemma well_logged_ret {A : Type} (a : A) : well_logged (ret a).
Proof. intros t. exists []. cbn. now rewrite app_nil_r. Qed.

Lemma well_logged_raise {A : Type} (e : Exn) : well_logged (@raise A e).
Proof. intros t. exists []. cbn. now rewrite app_nil_r. Qed.

Lemma well_logged_exit {A : Type} (code : Z) : well_logged (@exit A code).
Proof. intros t. exists []. cbn. now rewrite app_nil_r. Qed.

Lemma well_logged_lift {A : Type} (o : Outcome A) : well_logged (lift o).
Proof. intros t. exists []. cbn. now rewrite app_nil_r. Qed.

Lemma well_logged_print (line : string) : well_logged (print line).
Proof. intros t. exists [EvPrint line]. split; reflexivity. Qed.

Lemma well_logged_create (path : string) : well_logged (emit (EvCreate path)).
Proof. intros t. exists [EvCreate path]. split; reflexivity. Qed.

Lemma well_logged_write (path data : string) :
  well_logged (emit (EvWrite path data)).
Proof. intros t. exists [EvWrite path data]. split; reflexivity. Qed.

Lemma well_logged_remove (path : string) : well_logged (emit (EvRemove path)).
Proof. intros t. exists [EvRemove path]. split; reflexivity. Qed.

Lemma well_logged_call (host : Host) (args : string) (failonerror : bool) :
  well_logged (call host args failonerror).
Proof.
  intros t. rewrite call_spec. cbn [snd]. eexists. split; [reflexivity |].
  unfold logged. cbn [app logged_from]. rewrite String.eqb_refl. cbn [andb].
  apply logged_from_echo.
Qed.

Lemma well_logged_bind {A B : Type} (m : M A) (k : A -> M B) :
  well_logged m -> (forall a, well_logged (k a)) -> well_logged (bind m k).
Proof.
  intros Hm Hk t. destruct (Hm t) as (e1 & E1 & L1). unfold bind.
  destruct (m t) as [[a|e|c] t1]; cbn [snd] in E1; subst t1.
  - destruct (Hk a (t ++ e1)) as (e2 & E2 & L2).
    exists (e1 ++ e2). rewrite E2, app_assoc. split; [reflexivity |].
    now apply logged_from_app.
  - exists e1. split; [reflexivity | assumption].
  - exists e1. split; [reflexivity | assumption].
Qed.

Lemma well_logged_for_each {A : Type} (l : list A) (body : A -> M unit) :
  (forall x, well_logged (body x)) -> well_logged (for_each l body).
Proof.
  intros Hb. induction l as [|x l IH]; cbn [for_each].
  - apply well_logged_ret.
  - apply well_logged_bind; [apply Hb | intros _; exact IH].
Qed.

(** Split a computation into its steps. *)
Ltac well_logged_steps :=
  repeat first
    [ apply well_logged_call
    | apply well_logged_print
    | apply well_logged_ret
    | apply well_logged_raise
    | apply well_logged_exit
    | apply well_logged_create
    | apply well_logged_write
    | apply well_logged_remove
    | apply well_logged_bind; [| intro]
    | apply well_logged_for_each; intro
    | match goal with
      | |- well_logged (if ?b then _ else _) => destruct b
      | |- well_logged (match ?x with _ => _ end) => destruct x
      end ].

Lemma well_logged_exec_command (host : Host) (args : Args) (cfg : BranchConfig)
    (branch : option string) (command : string) :
  well_logged (exec_command host args cfg branch command).
Proof.
  unfold exec_command, build_engine, build_editor2, download_editor2,
    notarize_editor2, archive_editor2, build_bob, build_sdk, smoke_test,
    install, aptfast, setup_keychain, release.
  cbv zeta. well_logged_steps.
Qed.

Lemma well_logged_main (host : Host) (args : Args) : well_logged (main host args).
Proof.
  unfold main, get_branch. cbv zeta.
  repeat first
    [ apply well_logged_call
    | apply well_logged_print
    | apply well_logged_ret
    | apply well_logged_lift
    | apply well_logged_bind; [| intro]
    | match goal with
      | |- well_logged (if ?b then _ else _) => destruct b
      end ].
  unfold run_commands. apply well_logged_for_each. intros c.
  apply well_logged_exec_command.
Qed.

(** X14: whatever the host answers and however the run ends, a process that
    [main] starts is announced: the event just before the spawn is the
    print of the same command line. *)
Theorem main_announces_every_process (host : Host) (args : Args) (i : nat)
    (cmd : string) :
  snd (main host args []) !! i = Some (EvSpawn cmd) ->
  exists j, i = S j /\ snd (main host args []) !! j = Some (EvPrint cmd).
Proof.
  intros Hi. destruct (well_logged_main host args []) as (evs & E & L).
  rewrite E in *. cbn [app] in *.
  destruct (logged_from_lookup None evs i cmd L Hi) as [[_ H] | H];
    [discriminate | exact H].
Qed.

Lemma main_announces_every_process_witness :
  exists j, 5 = S j /\
    snd (main (quiet_host "master")
           (plain_args ["engine"] (Some "x86_64-linux") None) []) !! j
    = Some (EvPrint "python scripts/build.py distclean install_ext build_engine --platform=x86_64-linux --channel=stable --skip-codesign -- --with-valgrind").
Proof.
  apply (main_announces_every_process (quiet_host "master")
           (plain_args ["engine"] (Some "x86_64-linux") None) 5
           "python scripts/build.py distclean install_ext build_engine --platform=x86_64-linux --channel=stable --skip-codesign -- --with-valgrind").
  vm_compute. reflexivity.
Defined.

(** ** What the configuration promises to the commands *)

Lemma eq_str_true (branch : option string) (s : string) :
  eq_str branch s = true <-> branch = Some s.
Proof.
  destruct branch as [b|]; cbn [eq_str].
  - rewrite String.eqb_eq. split; congruence.
  - split; discriminate.
Qed.

(** The cases of [configure], in its order. *)
Lemma configure_cases (args : Args) (branch : option string) (c : BranchConfig) :
  configure args branch = Done c ->
  (branch = Some "master" /\
   c = Table.row (Some "stable") (Some "editor-alpha") (Some "editor-stable") false
         (or_default (args_engine_artifacts args) "archived") false) \/
  (branch = Some "beta" /\
   c = Table.row (Some "beta") (Some "beta") (Some "beta") true
         (or_default (args_engine_artifacts args) "archived") false) \/
  (branch = Some "dev" /\
   c = Table.row (Some "alpha") (Some "alpha") (Some "alpha") true
         (or_default (args_engine_artifacts args) "archived") false) \/
  (branch = Some "editor-dev" /\
   c = Table.row None (Some "editor-alpha") (Some "editor-alpha") true
         (args_engine_artifacts args) false) \/
  (eq_str branch "master" = false /\ eq_str branch "beta" = false /\
   eq_str branch "dev" = false /\ eq_str branch "editor-dev" = false /\
   (c = Table.row None None None false
          (or_default (args_engine_artifacts args) "archived-stable") false \/
    c = Table.row (Some "dev") None None false
          (or_default (args_engine_artifacts args) "archived") true)).
Proof.
  unfold configure.
  destruct (eq_str branch "master") eqn:E1.
  { intros [= <-]. left. split; [now apply eq_str_true | reflexivity]. }
  destruct (eq_str branch "beta") eqn:E2.
  { intros [= <-]. right; left. split; [now apply eq_str_true | reflexivity]. }
  destruct (eq_str branch "dev") eqn:E3.
  { intros [= <-]. do 2 right; left. split; [now apply eq_str_true | reflexivity]. }
  destruct (eq_str branch "editor-dev") eqn:E4.
  { intros [= <-]. do 3 right; left. split; [now apply eq_str_true | reflexivity]. }
  intros H. do 4 right. repeat (split; [reflexivity |]).
  destruct (truthy branch).
  - destruct branch as [b|]; cbn [startswith obind] in H.
    + destruct (String.prefix "DEFEDIT-" b); injection H as <-; auto.
    + discriminate.
  - cbn [obind] in H. injection H as <-. auto.
Qed.

Lemma or_default_truthy (v : option string) (d : string) :
  d ≠ EmptyString -> truthy (or_default v d) = true.
Proof.
  intros H. unfold or_default. destruct (truthy v) eqn:E; [assumption |].
  destruct d; [congruence | reflexivity].
Qed.

(** X15: releases are made on beta, dev and editor-dev and on no other
    branch, whatever the command line says. *)
Theorem make_release_iff (args : Args) (branch : option string) (c : BranchConfig) :
  configure args branch = Done c ->
  (make_release c = true <->
   branch = Some "beta" \/ branch = Some "dev" \/ branch = Some "editor-dev").
Proof.
  intros H.
  destruct (configure_cases args branch c H)
    as [[-> ->] | [[-> ->] | [[-> ->] | [[-> ->] | (N1 & N2 & N3 & N4 & Hc)]]]];
    cbn [make_release Table.row].
  - split; [discriminate | intros [E | [E | E]]; discriminate].
  - split; auto.
  - split; auto.
  - split; auto.
  - assert (make_release c = false) as -> by (destruct Hc as [-> | ->]; reflexivity).
    split; [discriminate |].
    intros [-> | [-> | ->]]; [vm_compute in N2 | vm_compute in N3 | vm_compute in N4];
      discriminate.
Qed.

Lemma make_release_iff_witness :
  make_release Table.editor_dev = true <->
  Some "editor-dev" = Some "beta" \/ Some "editor-dev" = Some "dev"
  \/ Some "editor-dev" = Some "editor-dev".
Proof.
  apply (make_release_iff (plain_args ["release"] None None) (Some "editor-dev")
           Table.editor_dev).
  reflexivity.
Defined.

(** X16: where a release is made, the release command starts one process,
    [scripts/build.py release] with the channel of the branch: beta on
    beta, alpha on dev, editor-alpha on editor-dev. *)
Theorem release_has_channel (host : Host) (args : Args) (branch : option string)
    (c : BranchConfig) (t : list Event) :
  configure args branch = Done c ->
  make_release c = true ->
  exists channel,
    release_channel c = Some channel /\
    channel ∈ ["beta"; "alpha"; "editor-alpha"] /\
    spawned (snd (exec_command host args c branch "release" t))
    = spawned t ++ ["python scripts/build.py release --channel=" +:+ channel].
Proof.
  intros H Hm.
  assert (Hs : forall channel, release_channel c = Some channel ->
               channel ≠ EmptyString ->
               spawned (snd (exec_command host args c branch "release" t))
               = spawned t ++ ["python scripts/build.py release --channel=" +:+ channel]).
  { intros channel Hc Hne. unfold exec_command.
    cbn [String.eqb Ascii.eqb Bool.eqb]. rewrite Hm. unfold release. rewrite Hc.
    destruct channel as [|x channel]; [congruence |]. cbn [truthy when str].
    unfold bind.
    match goal with
    | |- context [call host ?cmd true t] =>
        destruct (call_effects host cmd true t) as [S _];
        destruct (call host cmd true t) as [[o|e|k] t1]
    end; cbn [fst snd ret] in *; exact S. }
  destruct (configure_cases args branch c H)
    as [[-> ->] | [[-> ->] | [[-> ->] | [[-> ->] | (N1 & N2 & N3 & N4 & [-> | ->])]]]];
    cbn [make_release Table.row] in Hm; try discriminate.
  - exists "beta". split; [reflexivity |]. split; [set_solver |].
    apply Hs; [reflexivity | discriminate].
  - exists "alpha". split; [reflexivity |]. split; [set_solver |].
    apply Hs; [reflexivity | discriminate].
  - exists "editor-alpha". split; [reflexivity |]. split; [set_solver |].
    apply Hs; [reflexivity | discriminate].
Qed.

Lemma release_has_channel_witness :
  exists channel,
    release_channel Table.dev = Some channel /\
    channel ∈ ["beta"; "alpha"; "editor-alpha"] /\
    spawned (snd (exec_command (quiet_host "dev") (plain_args ["release"] None None)
                    Table.dev (Some "dev") "release" []))
    = [] ++ ["python scripts/build.py release --channel=" +:+ channel].
Proof.
  apply (release_has_channel (quiet_host "dev") (plain_args ["release"] None None)
           (Some "dev") Table.dev []); reflexivity.
Defined.

(** X17: except on editor-dev the configuration always names a non-empty
    source of engine artifacts; on editor-dev it is what --engine-artifacts
    says, possibly nothing. *)
Theorem engine_artifacts_present (args : Args) (branch : option string)
    (c : BranchConfig) :
  configure args branch = Done c ->
  (branch ≠ Some "editor-dev" -> truthy (engine_artifacts c) = true) /\
  (branch = Some "editor-dev" -> engine_artifacts c = args_engine_artifacts args).
Proof.
  intros H.
  destruct (configure_cases args branch c H)
    as [[-> ->] | [[-> ->] | [[-> ->] | [[-> ->] | (N1 & N2 & N3 & N4 & [-> | ->])]]]];
    cbn [engine_artifacts Table.row]; split;
    try (intros _; apply or_default_truthy; discriminate);
    try discriminate; try (intros []; reflexivity); try reflexivity.
  - intros ->. discriminate.
  - intros ->. discriminate.
Qed.

Lemma engine_artifacts_present_witness :
  truthy (engine_artifacts Table.defedit) = true.
Proof.
  apply (engine_artifacts_present (plain_args ["build-editor"] None None)
           (Some "DEFEDIT-1234") Table.defedit); [reflexivity | discriminate].
Defined.

End CiTraces.

(** * Further properties of waf_resource.py *)

Module WafResourceWiring.
Import Py WafResource WafResourceFacts.

Section Build.
Context {Node : Type}.
Variable find_or_declare : string -> Node.
Variable bldpath : Env -> string.
Variable pathsep : string.
Variable path_join : list string -> string.
Variable abspath : string -> string.

(** The task that [apply_barchive_after] registers for [self], with its
    parts named: [wired] is the builder after the loop over the tasks. *)
Lemma apply_barchive_after_registers (self : TaskGen Node) (root uc : Value)
    (name home : string) :
  attrs self !! "source_root" = Some root ->
  root ≠ VNone ->
  attrs self !! "resource_name" = Some (VStr name) ->
  attrs self !! "use_compression" = Some uc ->
  env self !! "DYNAMO_HOME" = Some (EStr home) ->
  let wired :=
    wire_inputs (length (tasks self)) 0
      (tasks self ++ [create_task self "resource_archive"])
      (create_task self "resource_archive") in
  let benv :=
    append_value
      (append_value
         (append_value
            (<["CLASSPATH" :=
                 EStr (join pathsep [home +:+ "/share/java/bob-light.jar";
                                     "default/src/java"])]> (task_env wired))
            "ARCHIVEBUILDER_ROOT" [root])
         "ARCHIVEBUILDER_OUTPUT"
         [VStr (abspath (path_join ["build"; bldpath (env self); name]))])
      "ARCHIVEBUILDER_FLAGS" [VStr "-m"] in
  apply_barchive_after find_or_declare bldpath pathsep path_join abspath self
  = (Done [],
     {| attrs := attrs self; env := env self;
        tasks := tasks self ++
               [{| task_type := task_type wired;
                   task_env :=
                     if is_true uc
                     then append_value benv "ARCHIVEBUILDER_FLAGS" [VStr "-c"]
                     else benv;
                   inputs := inputs wired;
                   outputs :=
                     map (fun extension =>
                            find_or_declare (name +:+ "." +:+ extension))
                         ["dmanifest"; "arci"; "arcd"; "public"; "manifest_hash"];
                   run_after := run_after wired |}] |}).
Proof.
  intros Hroot Hnone Hname Huc Hhome wired benv.
  unfold apply_barchive_after, getattr, attempt.
  rewrite Hroot, Hname, Huc. cbn [is_none].
  replace (is_none root) with false
    by (destruct root; [now destruct Hnone | reflexivity | reflexivity]).
  unfold env_get at 1. rewrite Hhome. cbn [default].
  destruct (is_true uc); reflexivity.
Qed.

(** The loop over the tasks skips the builder, which is last, and takes
    every task before it. *)
Lemma wire_inputs_others (ts : list (Task Node)) (x builder : Task Node) (i : nat) :
  inputs (wire_inputs (i + length ts) i (ts ++ [x]) builder)
  = inputs builder ++ flat_map outputs ts /\
  run_after (wire_inputs (i + length ts) i (ts ++ [x]) builder)
  = run_after builder ++ seq i (length ts) /\
  outputs (wire_inputs (i + length ts) i (ts ++ [x]) builder) = outputs builder.
Proof.
  revert i builder. induction ts as [|a ts IH]; intros i builder.
  - cbn [length app wire_inputs flat_map seq]. rewrite Nat.add_0_r, Nat.eqb_refl.
    now rewrite !app_nil_r.
  - cbn [length app wire_inputs flat_map seq].
    replace (Nat.eqb i (i + S (length ts))) with false
      by (symmetry; apply Nat.eqb_neq; lia).
    replace (i + S (length ts)) with (S i + length ts) by lia.
    destruct (IH (S i)
      {| task_type := task_type builder; task_env := task_env builder;
         inputs := inputs builder ++ outputs a;
         outputs := outputs builder;
         run_after := run_after builder ++ [i] |}) as (Hi & Hr & Ho).
    rewrite Hi, Hr, Ho. cbn [inputs run_after outputs].
    now rewrite <- !app_assoc.
Qed.

Lemma def_attrs_keeps (a : gmap string Value) (k k' : string) (d v : Value) :
  a !! k' = Some v -> def_attrs a k d !! k' = Some v.
Proof.
  intros H. unfold def_attrs. destruct (a !! k) eqn:E; [assumption |].
  rewrite lookup_insert_ne; [assumption | congruence].
Qed.

Lemma def_attrs_present (a : gmap string Value) (k : string) (d : Value) :
  is_Some (a !! k) -> def_attrs a k d = a.
Proof. intros [v H]. unfold def_attrs. now rewrite H. Qed.

Lemma def_attrs_is_Some (a : gmap string Value) (k : string) (d : Value) :
  is_Some (def_attrs a k d !! k).
Proof.
  unfold def_attrs. destruct (a !! k) eqn:E; [rewrite E; eauto |].
  rewrite lookup_insert_eq. eauto.
Qed.

Lemma def_attrs_is_Some_keeps (a : gmap string Value) (k k' : string) (d : Value) :
  is_Some (a !! k') -> is_Some (def_attrs a k d !! k').
Proof. intros [v H]. exists v. now apply def_attrs_keeps. Qed.

(** X18: [apply_barchive_before] only fills in what is missing: an
    attribute that the generator sets keeps its value, the environment and
    the tasks are untouched, and applying it again changes nothing. *)
Theorem before_keeps_settings (self : TaskGen Node) (k : string) (v : Value) :
  attrs self !! k = Some v ->
  attrs (apply_barchive_before self) !! k = Some v /\
  env (apply_barchive_before self) = env self /\
  tasks (apply_barchive_before self) = tasks self /\
  apply_barchive_before (apply_barchive_before self) = apply_barchive_before self.
Proof.
  intros H. unfold apply_barchive_before. cbn [attrs env tasks].
  split; [now do 3 apply def_attrs_keeps |].
  split; [reflexivity |]. split; [reflexivity |].
  f_equal.
  rewrite (def_attrs_present _ "source_root")
    by (do 2 apply def_attrs_is_Some_keeps; apply def_attrs_is_Some).
  rewrite (def_attrs_present _ "resource_name")
    by (apply def_attrs_is_Some_keeps; apply def_attrs_is_Some).
  rewrite (def_attrs_present _ "use_compression") by apply def_attrs_is_Some.
  reflexivity.
Qed.

(** X19: a generator that has no source_root, or has None for it, gets the
    error "source_root is not specified!" and no task; that is the only
    error even when resource_name is missing too. *)
Theorem no_task_without_source_root (self : TaskGen Node) :
  attrs self !! "source_root" = None \/ attrs self !! "source_root" = Some VNone ->
  apply_barchive_after find_or_declare bldpath pathsep path_join abspath
    (apply_barchive_before self)
  = (Done ["source_root is not specified!"], apply_barchive_before self).
Proof.
  intros H.
  assert (E : attrs (apply_barchive_before self) !! "source_root" = Some VNone).
  { unfold apply_barchive_before. cbn [attrs].
    rewrite !def_attrs_lookup_ne by discriminate.
    destruct H as [H | H];
      [now apply def_attrs_lookup_unset | now apply def_attrs_lookup_set]. }
  unfold apply_barchive_after, getattr. rewrite E. reflexivity.
Qed.

(** X20: with a source_root but no resource_name, or None for it, the
    generator gets the error "resource_name is not specified!" and no
    task. *)
Theorem no_task_without_resource_name (self : TaskGen Node) (root : Value) :
  attrs self !! "source_root" = Some root ->
  root ≠ VNone ->
  attrs self !! "resource_name" = None \/ attrs self !! "resource_name" = Some VNone ->
  apply_barchive_after find_or_declare bldpath pathsep path_join abspath
    (apply_barchive_before self)
  = (Done ["resource_name is not specified!"], apply_barchive_before self).
Proof.
  intros Hroot Hnone H.
  assert (E1 : attrs (apply_barchive_before self) !! "source_root" = Some root).
  { unfold apply_barchive_before. cbn [attrs]. now do 3 apply def_attrs_keeps. }
  assert (E2 : attrs (apply_barchive_before self) !! "resource_name" = Some VNone).
  { unfold apply_barchive_before. cbn [attrs].
    rewrite def_attrs_lookup_ne by discriminate.
    destruct H as [H | H].
    - apply def_attrs_lookup_unset. now rewrite def_attrs_lookup_ne by discriminate.
    - now do 2 apply def_attrs_keeps. }
  unfold apply_barchive_after, getattr, attempt. rewrite E1, E2.
  replace (is_none root) with false
    by (destruct root; [now destruct Hnone | reflexivity | reflexivity]).
  reflexivity.
Qed.

(** X21: the registered builder runs after every task the generator
    already had and takes all their outputs, in order, as its inputs; it
    declares the five files of the archive as its outputs, and the tasks
    that were there are left as they were. *)
Theorem builder_wiring (self : TaskGen Node) (root uc : Value) (name home : string) :
  attrs self !! "source_root" = Some root ->
  root ≠ VNone ->
  attrs self !! "resource_name" = Some (VStr name) ->
  attrs self !! "use_compression" = Some uc ->
  env self !! "DYNAMO_HOME" = Some (EStr home) ->
  exists builder,
    apply_barchive_after find_or_declare bldpath pathsep path_join abspath self
    = (Done [], {| attrs := attrs self; env := env self;
                   tasks := tasks self ++ [builder] |}) /\
    inputs builder = flat_map outputs (tasks self) /\
    run_after builder = seq 0 (length (tasks self)) /\
    outputs builder
    = [find_or_declare (name +:+ ".dmanifest");
       find_or_declare (name +:+ ".arci");
       find_or_declare (name +:+ ".arcd");
       find_or_declare (name +:+ ".public");
       find_or_declare (name +:+ ".manifest_hash")].
Proof.
  intros Hroot Hnone Hname Huc Hhome.
  eexists. split.
  - apply (apply_barchive_after_registers self root uc name home); assumption.
  - cbn [inputs run_after outputs].
    destruct (wire_inputs_others (tasks self) (create_task self "resource_archive")
                (create_task self "resource_archive") 0) as (Hi & Hr & _).
    cbn [Nat.add] in Hi, Hr. rewrite Hi, Hr. repeat split.
Qed.


(** X23: the builder works on a copy of the environment of the generator
    in which only CLASSPATH and the three ARCHIVEBUILDER variables differ:
    CLASSPATH is bob-light.jar under DYNAMO_HOME followed by
    default/src/java, and every other variable reads as in the
    generator. *)
Theorem builder_env_frame (self : TaskGen Node) (root uc : Value)
    (name home var : string) :
  attrs self !! "source_root" = Some root ->
  root ≠ VNone ->
  attrs self !! "resource_name" = Some (VStr name) ->
  attrs self !! "use_compression" = Some uc ->
  env self !! "DYNAMO_HOME" = Some (EStr home) ->
  var ∉ ["CLASSPATH"; "ARCHIVEBUILDER_ROOT"; "ARCHIVEBUILDER_OUTPUT";
         "ARCHIVEBUILDER_FLAGS"] ->
  exists builder,
    apply_barchive_after find_or_declare bldpath pathsep path_join abspath self
    = (Done [], {| attrs := attrs self; env := env self;
                   tasks := tasks self ++ [builder] |}) /\
    task_env builder !! var = env self !! var /\
    task_env builder !! "CLASSPATH"
    = Some (EStr ((home +:+ "/share/java/bob-light.jar") +:+ pathsep
                  +:+ "default/src/java")).
Proof.
  intros Hroot Hnone Hname Huc Hhome Hvar.
  assert (Hv : forall k, k ∈ ["CLASSPATH"; "ARCHIVEBUILDER_ROOT";
                              "ARCHIVEBUILDER_OUTPUT"; "ARCHIVEBUILDER_FLAGS"] ->
               k ≠ var) by (intros k Hk ->; contradiction).
  eexists. split.
  - apply (apply_barchive_after_registers self root uc name home); assumption.
  - cbn [task_env].
    destruct (wire_inputs_env (length (tasks self)) 0
                (tasks self ++ [create_task self "resource_archive"])
                (create_task self "resource_archive")) as [He _].
    rewrite He. cbn [create_task task_env].
    split.
    + destruct (is_true uc); unfold append_value;
        rewrite !lookup_insert_ne by (apply Hv; set_solver); reflexivity.
    + destruct (is_true uc); unfold append_value;
        rewrite !lookup_insert_ne by discriminate;
        rewrite lookup_insert_eq; reflexivity.
Qed.

End Build.

Lemma before_keeps_settings_witness :
  attrs (apply_barchive_before Posix.game_archive) !! "source_root"
  = Some (VStr "content").
Proof.
  apply (before_keeps_settings Posix.game_archive "source_root" (VStr "content")).
  reflexivity.
Defined.

Lemma no_task_without_source_root_witness :
  apply_barchive_after Posix.find_or_declare Posix.bldpath Posix.pathsep
    Posix.path_join Posix.abspath
    (apply_barchive_before
       {| attrs := ∅; env := <["DYNAMO_HOME" := EStr "/opt/dynamo"]> ∅; tasks := [] |})
  = (Done ["source_root is not specified!"],
     apply_barchive_before
       {| attrs := ∅; env := <["DYNAMO_HOME" := EStr "/opt/dynamo"]> ∅;
          tasks := [] |}).
Proof.
  apply (no_task_without_source_root Posix.find_or_declare Posix.bldpath
           Posix.pathsep Posix.path_join Posix.abspath
           {| attrs := ∅; env := <["DYNAMO_HOME" := EStr "/opt/dynamo"]> ∅;
              tasks := [] |}).
  left. reflexivity.
Defined.

Lemma no_task_without_resource_name_witness :
  apply_barchive_after Posix.find_or_declare Posix.bldpath Posix.pathsep
    Posix.path_join Posix.abspath
    (apply_barchive_before
       {| attrs := <["source_root" := VStr "content"]> ∅; env := ∅; tasks := [] |})
  = (Done ["resource_name is not specified!"],
     apply_barchive_before
       {| attrs := <["source_root" := VStr "content"]> ∅; env := ∅;
          tasks := [] |}).
Proof.
  apply (no_task_without_resource_name Posix.find_or_declare Posix.bldpath
           Posix.pathsep Posix.path_join Posix.abspath
           {| attrs := <["source_root" := VStr "content"]> ∅; env := ∅; tasks := [] |}
           (VStr "content")).
  - reflexivity.
  - discriminate.
  - left. reflexivity.
Defined.

Lemma builder_wiring_witness :
  exists builder,
    apply_barchive_after Posix.find_or_declare Posix.bldpath Posix.pathsep
      Posix.path_join Posix.abspath Posix.compiled_game
    = (Done [], {| attrs := attrs Posix.compiled_game;
                   env := env Posix.compiled_game;
                   tasks := tasks Posix.compiled_game ++ [builder] |}) /\
    inputs builder = ["logo.texturec"; "main.collectionc"; "main.goc"] /\
    run_after builder = [0; 1] /\
    outputs builder
    = ["game.dmanifest"; "game.arci"; "game.arcd"; "game.public";
       "game.manifest_hash"].
Proof.
  apply (builder_wiring Posix.find_or_declare Posix.bldpath Posix.pathsep
           Posix.path_join Posix.abspath Posix.compiled_game
           (VStr "content") (VBool true) "game" "/opt/dynamo");
    try reflexivity.
  discriminate.
Defined.


Lemma builder_env_frame_witness :
  exists builder,
    apply_barchive_after Posix.find_or_declare Posix.bldpath Posix.pathsep
      Posix.path_join Posix.abspath Posix.compiled_game
    = (Done [], {| attrs := attrs Posix.compiled_game;
                   env := env Posix.compiled_game;
                   tasks := tasks Posix.compiled_game ++ [builder] |}) /\
    task_env builder !! "JAVA" = Some (EStr "/usr/bin/java") /\
    task_env builder !! "CLASSPATH"
    = Some (EStr "/opt/dynamo/share/java/bob-light.jar:default/src/java").
Proof.
  apply (builder_env_frame Posix.find_or_declare Posix.bldpath Posix.pathsep
           Posix.path_join Posix.abspath Posix.compiled_game
           (VStr "content") (VBool true) "game" "/opt/dynamo" "JAVA");
    try reflexivity.
  - discriminate.
  - intros H.
    repeat (apply elem_of_cons in H; destruct H as [H | H]; [discriminate |]).
    now apply elem_of_nil in H.
Defined.

End WafResourceWiring.
